(** * digitalocean-deno: the request transport and the action services

    A shallow embedding of [src/lib/request-tool.ts] (class [RequestTool]),
    of [src/lib/services/block-storage-actions-service.ts] and of the
    [FloatingIPActionService] and [ActionService] classes, together with the
    part of the JavaScript platform they call ([JSON.stringify],
    [JSON.parse], [String.prototype.toLowerCase], template literals,
    truthiness, [fetch]).

    Layout: platform values and built-ins, the effect monad (network trace
    and abrupt completion), the transport, the services, then the theorems. *)

From Stdlib Require Import ZArith Ascii String DecimalString.
From stdpp Require Import base option list gmap strings.

Set Warnings "-register-all".

Local Open Scope Z_scope.
Local Open Scope string_scope.

(** ** JavaScript values *)

Module JS.

(** Numbers.  [NInt z] is the double whose value is the integer [z]; [NNaN]
    and [NInf] are the non-finite doubles.  Doubles with a fractional part do
    not occur in the code under study and are left out. *)
Inductive jsnum : Type :=
| NInt (z : Z)
| NNaN
| NInf (negative : bool).

(** Values of type [any].  An object graph is represented by its unfolding
    from the root: [JUp n] is a reference back to the [n]-th enclosing array
    or object (0 is the innermost one), which is how a cycle appears.
    [JFun src] is a function with source text [src]. *)
Inductive jsval : Type :=
| JUndefined
| JNull
| JBool (b : bool)
| JNum (n : jsnum)
| JBigInt (z : Z)
| JStr (s : string)
| JFun (src : string)
| JArr (elems : list jsval)
| JObj (props : list (string * jsval))
| JUp (n : nat).

(** A nested induction principle for values. *)
Section jsval_induction.
Variable P : jsval -> Prop.
Hypothesis Hundefined : P JUndefined.
Hypothesis Hnull : P JNull.
Hypothesis Hbool : forall b, P (JBool b).
Hypothesis Hnum : forall n, P (JNum n).
Hypothesis Hbigint : forall z, P (JBigInt z).
Hypothesis Hstr : forall s, P (JStr s).
Hypothesis Hfun : forall src, P (JFun src).
Hypothesis Harr : forall elems, Forall P elems -> P (JArr elems).
Hypothesis Hobj : forall props, Forall (fun kv => P (snd kv)) props -> P (JObj props).
Hypothesis Hup : forall n, P (JUp n).

End jsval_induction.

(** ** Strings *)

(** [Number::toString] on an integer: plain decimal digits (the form the
    platform prints for magnitudes below 10^21). *)
Definition Z_to_string (z : Z) : string := NilZero.string_of_int (Z.to_int z).

Definition number_to_string (n : jsnum) : string :=
  match n with
  | NInt z => Z_to_string z
  | NNaN => "NaN"
  | NInf false => "Infinity"
  | NInf true => "-Infinity"
  end.

Definition lower_ascii (c : ascii) : ascii :=
  let n := N_of_ascii c in
  if ((65 <=? n) && (n <=? 90))%N then ascii_of_N (n + 32) else c.

(** [String.prototype.toLowerCase], on the ASCII letters. *)
Fixpoint toLowerCase (s : string) : string :=
  match s with
  | EmptyString => EmptyString
  | String c r => String (lower_ascii c) (toLowerCase r)
  end.

(** [Array.prototype.join] with separator [sep]. *)
Fixpoint join (sep : string) (l : list string) : string :=
  match l with
  | [] => EmptyString
  | [x] => x
  | x :: r => x +:+ sep +:+ join sep r
  end.

(** The abstract operation ToString.  Inside an array, [undefined] and
    [null] print as the empty string, and so does an element that is the
    array being printed ([JUp]). *)
Fixpoint ToString (v : jsval) : string :=
  match v with
  | JUndefined => "undefined"
  | JNull => "null"
  | JBool true => "true"
  | JBool false => "false"
  | JNum n => number_to_string n
  | JBigInt z => Z_to_string z
  | JStr s => s
  | JFun src => src
  | JArr elems =>
      join "," (map (fun e => match e with
                              | JUndefined | JNull | JUp _ => EmptyString
                              | _ => ToString e
                              end) elems)
  | JObj _ => "[object Object]"
  | JUp _ => EmptyString
  end.

(** The abstract operation ToBoolean: the falsy values are [undefined],
    [null], [false], [0], [NaN], [0n] and the empty string. *)
Definition truthy (v : jsval) : bool :=
  match v with
  | JUndefined | JNull => false
  | JBool b => b
  | JNum (NInt z) => negb (z =? 0)%Z
  | JNum NNaN => false
  | JNum (NInf _) => true
  | JBigInt z => negb (z =? 0)%Z
  | JStr s => negb (String.eqb s EmptyString)
  | JFun _ | JArr _ | JObj _ | JUp _ => true
  end.

(** ** Errors and completions *)

(** An HTTP response as [fetch] resolves it.  [resp_body] is what
    [response.text()] resolves to; [None] when reading the body rejects. *)
Record Response : Type := mkResponse {
  status : Z;
  statusText : string;
  resp_headers : list (string * string);
  resp_body : option string
}.

(** [interface Result<T>]: [text] is [string | null], [None] being [null]. *)
Record Result : Type := mkResult {
  response : Response;
  text : option string;
  data : jsval
}.

(** Thrown values.  [ErrorWith msg r] is
    [Object.assign(new Error(msg), {response, text, data})]. *)
Inductive js_error : Type :=
| TypeError (msg : string)
| SyntaxError (msg : string)
| ReferenceError (msg : string)
| Error (msg : string)
| ErrorWith (msg : string) (payload : Result).

Inductive completion (A : Type) : Type :=
| Normal (a : A)
| Abrupt (e : js_error).
Arguments Normal {A} a.
Arguments Abrupt {A} e.

(** Property read [o.k].  Reading a property of [undefined] or [null] is a
    TypeError; a missing property reads as [undefined].  When a key occurs
    twice the later binding is the live one. *)
Fixpoint lookup_prop (k : string) (props : list (string * jsval)) : option jsval :=
  match props with
  | [] => None
  | (k', v) :: r =>
      match lookup_prop k r with
      | Some w => Some w
      | None => if String.eqb k k' then Some v else None
      end
  end.

Definition get_prop (o : jsval) (k : string) : completion jsval :=
  match o with
  | JUndefined => Abrupt (TypeError "Cannot read properties of undefined")
  | JNull => Abrupt (TypeError "Cannot read properties of null")
  | JObj props => Normal (default JUndefined (lookup_prop k props))
  | _ => Normal JUndefined
  end.

(** ** [JSON.stringify] *)

Definition dquote : ascii := "034"%char.
Definition backslash : ascii := "092"%char.

Definition hex_digit (n : N) : ascii :=
  (if n <? 10 then ascii_of_N (48 + n) else ascii_of_N (87 + n))%N.

(** QuoteJSONString, one character at a time. *)
Definition quote_char (c : ascii) : string :=
  let n := N_of_ascii c in
  let esc (e : ascii) := String backslash (String e EmptyString) in
  if (n =? 34)%N then esc dquote
  else if (n =? 92)%N then esc backslash
  else if (n =? 8)%N then esc "b"%char
  else if (n =? 12)%N then esc "f"%char
  else if (n =? 10)%N then esc "n"%char
  else if (n =? 13)%N then esc "r"%char
  else if (n =? 9)%N then esc "t"%char
  else if (n <? 32)%N then
    String backslash
      (String "u" (String "0" (String "0"
         (String (hex_digit (n / 16)) (String (hex_digit (n mod 16)) EmptyString)))))
  else String c EmptyString.

Fixpoint quote_chars (s : string) : string :=
  match s with
  | EmptyString => EmptyString
  | String c r => quote_char c +:+ quote_chars r
  end.

Definition quote (s : string) : string :=
  String dquote (quote_chars s +:+ String dquote EmptyString).

(** SerializeJSONProperty.  The result is [Normal None] when the platform
    answers [undefined] (for [undefined] itself and for a function),
    [Abrupt] when it throws: on a BigInt, and on a value that is already on
    the stack of enclosing values, which in the unfolded representation is
    exactly a [JUp].  In an array an [undefined] element prints as [null]; in
    an object a property whose value is [undefined] is left out. *)
Fixpoint stringify (v : jsval) : completion (option string) :=
  match v with
  | JUndefined | JFun _ => Normal None
  | JNull => Normal (Some "null")
  | JBool true => Normal (Some "true")
  | JBool false => Normal (Some "false")
  | JNum (NInt z) => Normal (Some (Z_to_string z))
  | JNum _ => Normal (Some "null")
  | JBigInt _ => Abrupt (TypeError "Do not know how to serialize a BigInt")
  | JStr s => Normal (Some (quote s))
  | JArr elems =>
      match
        (fix elements (l : list jsval) : completion (list string) :=
           match l with
           | [] => Normal []
           | e :: r =>
               match stringify e with
               | Abrupt err => Abrupt err
               | Normal o =>
                   match elements r with
                   | Abrupt err => Abrupt err
                   | Normal ss => Normal (default "null" o :: ss)
                   end
               end
           end) elems
      with
      | Abrupt err => Abrupt err
      | Normal ss => Normal (Some ("[" +:+ join "," ss +:+ "]"))
      end
  | JObj props =>
      match
        (fix members (l : list (string * jsval)) : completion (list string) :=
           match l with
           | [] => Normal []
           | (k, e) :: r =>
               match stringify e with
               | Abrupt err => Abrupt err
               | Normal o =>
                   match members r with
                   | Abrupt err => Abrupt err
                   | Normal ss =>
                       Normal (match o with
                               | Some s => (quote k +:+ ":" +:+ s) :: ss
                               | None => ss
                               end)
                   end
               end
           end) props
      with
      | Abrupt err => Abrupt err
      | Normal ss => Normal (Some ("{" +:+ join "," ss +:+ "}"))
      end
  | JUp _ => Abrupt (TypeError "Converting circular structure to JSON")
  end.

Definition JSON_stringify (v : jsval) : completion (option string) := stringify v.

(** The two inner loops of [stringify], by name. *)
Fixpoint stringify_elements (l : list jsval) : completion (list string) :=
  match l with
  | [] => Normal []
  | e :: r =>
      match stringify e with
      | Abrupt err => Abrupt err
      | Normal o =>
          match stringify_elements r with
          | Abrupt err => Abrupt err
          | Normal ss => Normal (default "null" o :: ss)
          end
      end
  end.

Fixpoint stringify_members (l : list (string * jsval)) : completion (list string) :=
  match l with
  | [] => Normal []
  | (k, e) :: r =>
      match stringify e with
      | Abrupt err => Abrupt err
      | Normal o =>
          match stringify_members r with
          | Abrupt err => Abrupt err
          | Normal ss =>
              Normal (match o with
                      | Some s => (quote k +:+ ":" +:+ s) :: ss
                      | None => ss
                      end)
          end
      end
  end.

(** ** [JSON.parse] *)

(** Result of a parsing step: a value and the unread input, a syntax error,
    or the recursion budget ran out. *)
Inductive presult (A : Type) : Type :=
| POk (a : A) (rest : string)
| PSyntax
| PFuel.
Arguments POk {A} a rest.
Arguments PSyntax {A}.
Arguments PFuel {A}.

Definition is_ws (c : ascii) : bool :=
  let n := N_of_ascii c in
  ((n =? 32) || (n =? 9) || (n =? 10) || (n =? 13))%N.

Fixpoint skip_ws (s : string) : string :=
  match s with
  | String c r => if is_ws c then skip_ws r else s
  | EmptyString => s
  end.

Fixpoint strip_prefix (p s : string) : option string :=
  match p, s with
  | EmptyString, _ => Some s
  | String a p', String b s' => if Ascii.eqb a b then strip_prefix p' s' else None
  | String _ _, EmptyString => None
  end.

Definition digit_of (c : ascii) : option Z :=
  let n := N_of_ascii c in
  if ((48 <=? n) && (n <=? 57))%N then Some (Z.of_N n - 48) else None.

Definition hex_of (c : ascii) : option N :=
  let n := N_of_ascii c in
  (if (48 <=? n) && (n <=? 57) then Some (n - 48)
   else if (97 <=? n) && (n <=? 102) then Some (n - 87)
   else if (65 <=? n) && (n <=? 70) then Some (n - 55)
   else None)%N.

(** The UTF-8 bytes of a code unit below 2^16 (strings are byte strings
    here; the two halves of a surrogate pair are encoded one by one). *)
Definition utf8 (n : N) : string :=
  (if n <? 128 then String (ascii_of_N n) EmptyString
   else if n <? 2048 then
     String (ascii_of_N (192 + n / 64)) (String (ascii_of_N (128 + n mod 64)) EmptyString)
   else
     String (ascii_of_N (224 + n / 4096))
       (String (ascii_of_N (128 + (n / 64) mod 64))
          (String (ascii_of_N (128 + n mod 64)) EmptyString)))%N.

Definition unescape (e : ascii) : option ascii :=
  let n := N_of_ascii e in
  (if n =? 34 then Some dquote
   else if n =? 92 then Some backslash
   else if n =? 47 then Some "/"%char
   else if n =? 98 then Some "008"%char
   else if n =? 102 then Some "012"%char
   else if n =? 110 then Some "010"%char
   else if n =? 114 then Some "013"%char
   else if n =? 116 then Some "009"%char
   else None)%N.

(** The characters of a string literal after its opening quote, up to and
    including the closing quote. *)
Fixpoint parse_chars (s : string) (acc : string) : presult string :=
  match s with
  | EmptyString => PSyntax
  | String c r =>
      if Ascii.eqb c dquote then POk acc r
      else if Ascii.eqb c backslash then
        match r with
        | EmptyString => PSyntax
        | String e r' =>
            if Ascii.eqb e "u" then
              match r' with
              | String h1 (String h2 (String h3 (String h4 r''))) =>
                  match hex_of h1, hex_of h2, hex_of h3, hex_of h4 with
                  | Some a, Some b, Some c', Some d =>
                      parse_chars r'' (acc +:+ utf8 (((a * 16 + b) * 16 + c') * 16 + d)%N)
                  | _, _, _, _ => PSyntax
                  end
              | _ => PSyntax
              end
            else
              match unescape e with
              | Some c' => parse_chars r' (acc +:+ String c' EmptyString)
              | None => PSyntax
              end
        end
      else if (N_of_ascii c <? 32)%N then PSyntax
      else parse_chars r (acc +:+ String c EmptyString)
  end.

Fixpoint parse_digits (s : string) (acc : Z) : Z * string :=
  match s with
  | String c r =>
      match digit_of c with
      | Some d => parse_digits r (acc * 10 + d)
      | None => (acc, s)
      end
  | EmptyString => (acc, s)
  end.

(** What may follow the integer part of a number literal.  A fraction or an
    exponent, and an integer too large to be a double exactly, denote doubles
    outside [jsnum]; the model answers such a literal with [PSyntax]. *)
Definition number_end (negative : bool) (z : Z) (rest : string) : presult jsval :=
  match rest with
  | String c _ =>
      if Ascii.eqb c "." || Ascii.eqb c "e" || Ascii.eqb c "E" then PSyntax
      else if (z <=? 2 ^ 53)%Z then POk (JNum (NInt (if negative then - z else z))) rest
      else PSyntax
  | EmptyString =>
      if (z <=? 2 ^ 53)%Z then POk (JNum (NInt (if negative then - z else z))) rest
      else PSyntax
  end.

(** An integer literal: a single 0, or a non-zero digit followed by digits;
    the input starts with the first digit, the sign has been read. *)
Definition parse_int (negative : bool) (s : string) : presult jsval :=
  match s with
  | String c r =>
      match digit_of c with
      | Some 0 => number_end negative 0 r
      | Some d => let '(z, rest) := parse_digits r d in number_end negative z rest
      | None => PSyntax
      end
  | EmptyString => PSyntax
  end.

(** [obj[k] = v]: an existing key keeps its place, a new one goes last. *)
Fixpoint set_prop (k : string) (v : jsval) (props : list (string * jsval))
  : list (string * jsval) :=
  match props with
  | [] => [(k, v)]
  | (k', w) :: r => if String.eqb k k' then (k, v) :: r else (k', w) :: set_prop k v r
  end.

Definition literal (tail : string) (v : jsval) (r : string) : presult jsval :=
  match strip_prefix tail r with
  | Some r' => POk v r'
  | None => PSyntax
  end.

(** The JSON value grammar by recursive descent.  Every recursive call
    spends one unit of [fuel]; [parse_elements] reads the elements of an
    array after its opening bracket, [parse_members] the members of an
    object after its opening brace. *)
Fixpoint parse_value (fuel : nat) (s : string) : presult jsval :=
  match fuel with
  | O => PFuel
  | S fuel' =>
      match skip_ws s with
      | EmptyString => PSyntax
      | String c r as s' =>
          if Ascii.eqb c "n" then literal "ull" JNull r
          else if Ascii.eqb c "t" then literal "rue" (JBool true) r
          else if Ascii.eqb c "f" then literal "alse" (JBool false) r
          else if Ascii.eqb c dquote then
            match parse_chars r EmptyString with
            | POk str r' => POk (JStr str) r'
            | PSyntax => PSyntax
            | PFuel => PFuel
            end
          else if Ascii.eqb c "-" then parse_int true r
          else if Ascii.eqb c "[" then
            match skip_ws r with
            | EmptyString => PSyntax
            | String c' r' =>
                if Ascii.eqb c' "]" then POk (JArr []) r' else parse_elements fuel' r []
            end
          else if Ascii.eqb c "{" then
            match skip_ws r with
            | EmptyString => PSyntax
            | String c' r' =>
                if Ascii.eqb c' "}" then POk (JObj []) r' else parse_members fuel' r []
            end
          else parse_int false s'
      end
  end
with parse_elements (fuel : nat) (s : string) (acc : list jsval) : presult jsval :=
  match fuel with
  | O => PFuel
  | S fuel' =>
      match parse_value fuel' s with
      | POk v r =>
          match skip_ws r with
          | EmptyString => PSyntax
          | String c r' =>
              if Ascii.eqb c "," then parse_elements fuel' r' (acc ++ [v])
              else if Ascii.eqb c "]" then POk (JArr (acc ++ [v])) r'
              else PSyntax
          end
      | PSyntax => PSyntax
      | PFuel => PFuel
      end
  end
with parse_members (fuel : nat) (s : string) (acc : list (string * jsval))
  : presult jsval :=
  match fuel with
  | O => PFuel
  | S fuel' =>
      match skip_ws s with
      | EmptyString => PSyntax
      | String c r =>
          if Ascii.eqb c dquote then
            match parse_chars r EmptyString with
            | POk k r1 =>
                match skip_ws r1 with
                | EmptyString => PSyntax
                | String c1 r2 =>
                    if Ascii.eqb c1 ":" then
                      match parse_value fuel' r2 with
                      | POk v r3 =>
                          match skip_ws r3 with
                          | EmptyString => PSyntax
                          | String c3 r4 =>
                              if Ascii.eqb c3 "," then
                                parse_members fuel' r4 (set_prop k v acc)
                              else if Ascii.eqb c3 "}" then
                                POk (JObj (set_prop k v acc)) r4
                              else PSyntax
                          end
                      | PSyntax => PSyntax
                      | PFuel => PFuel
                      end
                    else PSyntax
                end
            | PSyntax => PSyntax
            | PFuel => PFuel
            end
          else PSyntax
      end
  end.

(** [JSON.parse] on a text: one value, then only white space.  Anything
    else throws a SyntaxError. *)
Definition JSON_parse_text (s : string) : completion jsval :=
  match parse_value (2 * String.length s + 2) s with
  | POk v r =>
      match skip_ws r with
      | EmptyString => Normal v
      | String _ _ => Abrupt (SyntaxError "Unexpected non-whitespace character after JSON")
      end
  | PSyntax => Abrupt (SyntaxError "Unexpected token in JSON")
  | PFuel => Abrupt (SyntaxError "Unexpected end of JSON input")
  end.

(** [JSON.parse(v)]: the argument is first converted with ToString. *)
Definition JSON_parse (v : jsval) : completion jsval := JSON_parse_text (ToString v).

End JS.

(** ** Effects: the network and abrupt completion *)

Module Net.
Import JS.

(** What is handed to [fetch]: the URL and the [opts] object
    ([method], [headers] and, when set, [body]). *)
Record Request : Type := mkRequest {
  req_method : string;
  req_url : string;
  req_headers : gmap string string;
  req_body : option string
}.

(** The world on the other side of [fetch]: it resolves with a response or
    rejects (a network failure). *)
Definition server : Type := Request -> completion Response.

(** A computation reads the world, appends to the log of requests issued so
    far, and completes normally or abruptly.  For a method declared [async],
    and after a [.then], the abrupt completion is the rejection of the
    promise; otherwise it is a synchronous throw.  [await] is sequencing. *)
Definition Eff (A : Type) : Type :=
  server -> list Request -> completion A * list Request.

#[export] Instance completion_ret : MRet completion := fun A a => Normal a.
#[export] Instance completion_bind : MBind completion := fun A B f m =>
  match m with
  | Normal a => f a
  | Abrupt e => Abrupt e
  end.

#[export] Instance Eff_ret : MRet Eff := fun A a _ log => (Normal a, log).
#[export] Instance Eff_bind : MBind Eff := fun A B f m srv log =>
  match m srv log with
  | (Normal a, log') => f a srv log'
  | (Abrupt e, log') => (Abrupt e, log')
  end.

Definition throw {A : Type} (e : js_error) : Eff A := fun _ log => (Abrupt e, log).

(** A pure step of the platform inside a computation. *)
Definition lift {A : Type} (c : completion A) : Eff A := fun _ log => (c, log).

(** [fetch(url, opts)]: the request goes out, then the world answers. *)
Definition fetch (r : Request) : Eff Response := fun srv log => (srv r, (log ++ [r])%list).

(** Running a computation from an empty log. *)
Definition run {A : Type} (m : Eff A) (srv : server) : completion A * list Request :=
  m srv [].

End Net.

(** ** [src/lib/request-tool.ts] *)

Module Transport.
Import JS Net.

(** The fields of the [RequestTool] instance. *)
Record RequestTool : Type := mkRequestTool {
  baseUrl : string;
  token : string
}.

(** [#getHeaders]: the [switch] falls through its three labels to one
    assignment. *)
Definition getHeaders (this : RequestTool) (method : string) : gmap string string :=
  let headers : gmap string string :=
    <["Accept" := "application/json, text/plain, */*"]>
      (<["Authorization" := "Bearer " +:+ token this]> ∅) in
  let m := toLowerCase method in
  if String.eqb m "put" then <["Content-Type" := "application/json"]> headers
  else if String.eqb m "post" then <["Content-Type" := "application/json"]> headers
  else if String.eqb m "patch" then <["Content-Type" := "application/json"]> headers
  else headers.

(** [opts.body]: set to [JSON.stringify(body)] when [body !== undefined]. *)
Definition opts_body (body : jsval) : completion (option string) :=
  match body with
  | JUndefined => Normal None
  | _ => JSON_stringify body
  end.

(** A [string | null] as a value, for the test [if (text)]. *)
Definition text_value (t : option string) : jsval :=
  match t with
  | Some s => JStr s
  | None => JNull
  end.

(** [#query].  The decoding step is transcribed as written: the argument of
    [JSON.parse] is the variable [data], which holds [null] at that point. *)
Definition query (this : RequestTool) (method path : string) (body : jsval)
  : Eff Result :=
  let headers := getHeaders this method in
  b ← lift (opts_body body);
  response ← fetch (mkRequest method (baseUrl this +:+ path) headers b);
  let text := resp_body response in
  let data := JNull in
  let data :=
    match (if truthy (text_value text) then JSON_parse data else Normal data) with
    | Normal v => v
    | Abrupt _ => data
    end in
  if (status response >? 500)%Z then
    throw (ErrorWith "Server Error Result" (mkResult response text data))
  else if (status response >? 400)%Z then
    throw (ErrorWith "Client Error Result" (mkResult response text data))
  else mret (mkResult response text data).

Definition head (this : RequestTool) (path : string) : Eff Result :=
  query this "HEAD" path JUndefined.

Definition get (this : RequestTool) (path : string) : Eff Result :=
  query this "GET" path JUndefined.

Definition put (this : RequestTool) (path : string) (value : jsval) : Eff Result :=
  query this "PUT" path value.

Definition post (this : RequestTool) (path : string) (value : jsval) : Eff Result :=
  query this "POST" path value.

Definition patch (this : RequestTool) (path : string) (value : jsval) : Eff Result :=
  query this "PATCH" path value.

Definition delete (this : RequestTool) (path : string) (value : jsval) : Eff Result :=
  query this "DELETE" path value.

(** The six public entry points under one name, for statements that range
    over all of them.  [head] and [get] take no value. *)
Inductive verb : Type := HEAD | GET | PUT | POST | PATCH | DELETE.

Definition call (this : RequestTool) (v : verb) (path : string) (value : jsval)
  : Eff Result :=
  match v with
  | HEAD => head this path
  | GET => get this path
  | PUT => put this path value
  | POST => post this path value
  | PATCH => patch this path value
  | DELETE => delete this path value
  end.

(** The method string and the body each entry point hands to [#query]. *)
Definition verb_method (v : verb) : string :=
  match v with
  | HEAD => "HEAD"
  | GET => "GET"
  | PUT => "PUT"
  | POST => "POST"
  | PATCH => "PATCH"
  | DELETE => "DELETE"
  end.

Definition verb_body (v : verb) (value : jsval) : jsval :=
  match v with
  | HEAD | GET => JUndefined
  | _ => value
  end.

(** The request [#query] builds once the body has been serialized to [b]. *)
Definition request_of (this : RequestTool) (method path : string) (b : option string)
  : Request :=
  mkRequest method (baseUrl this +:+ path) (getHeaders this method) b.

End Transport.

(** ** [src/lib/services/block-storage-actions-service.ts] *)

Module BlockStorageActionService.
Import JS Net.

Definition required_fields_missing : js_error :=
  Error "Required fields missing from Action Object".

(** [!action.type || !action.droplet_id]: the right operand is read only
    when the left one is false. *)
Definition attachActionIsValid (action : jsval) : completion bool :=
  type ← get_prop action "type";
  if negb (truthy type) then mret false
  else
    droplet_id ← get_prop action "droplet_id";
    if negb (truthy droplet_id) then mret false else mret true.

Definition attachActionByNameIsValid (action : jsval) : completion bool :=
  valid ← attachActionIsValid action;
  if negb valid then mret false
  else
    volume_name ← get_prop action "volume_name";
    if negb (truthy volume_name) then mret false else mret true.

Definition resizeActionIsValid (action : jsval) : completion bool :=
  type ← get_prop action "type";
  if negb (truthy type) then mret false
  else
    size_gigabytes ← get_prop action "size_gigabytes";
    if negb (truthy size_gigabytes) then mret false else mret true.

(** The continuation [response => response.data.<field>]. *)
Definition project (field : string) (response : Result) : Eff jsval :=
  lift (get_prop (data response) field).

Definition attachVolumeToDroplet (request : Transport.RequestTool)
    (volumeId : string) (actionRequest : jsval) : Eff jsval :=
  valid ← lift (attachActionIsValid actionRequest);
  if negb valid then throw required_fields_missing
  else
    response ← Transport.post request ("/volumes/" +:+ volumeId +:+ "/actions") actionRequest;
    project "action" response.

Definition attachVolumeToDropletByName (request : Transport.RequestTool)
    (actionRequest : jsval) : Eff jsval :=
  valid ← lift (attachActionByNameIsValid actionRequest);
  if negb valid then throw required_fields_missing
  else
    response ← Transport.post request "/volumes/actions" actionRequest;
    project "action" response.

Definition detachVolumeFromDroplet (request : Transport.RequestTool)
    (volumeId : string) (actionRequest : jsval) : Eff jsval :=
  valid ← lift (attachActionIsValid actionRequest);
  if negb valid then throw required_fields_missing
  else
    response ← Transport.post request ("/volumes/" +:+ volumeId +:+ "/actions") actionRequest;
    project "action" response.

Definition detachVolumeFromDropletByName (request : Transport.RequestTool)
    (actionRequest : jsval) : Eff jsval :=
  valid ← lift (attachActionByNameIsValid actionRequest);
  if negb valid then throw required_fields_missing
  else
    response ← Transport.post request "/volumes/actions" actionRequest;
    project "action" response.

Definition resizeVolume (request : Transport.RequestTool)
    (volumeId : string) (actionRequest : jsval) : Eff jsval :=
  valid ← lift (resizeActionIsValid actionRequest);
  if negb valid then throw required_fields_missing
  else
    response ← Transport.post request ("/volumes/" +:+ volumeId +:+ "/actions") actionRequest;
    project "action" response.

(** [a ?? b] and [a || b] on values. *)
Definition nullish_or (a b : jsval) : jsval :=
  match a with
  | JUndefined | JNull => b
  | _ => a
  end.

Definition truthy_or (a b : jsval) : jsval := if truthy a then a else b.

(** The [url] constant of [getAllVolumeActions]; an omitted argument is
    [undefined]. *)
Definition getAllVolumeActions_url (volumeId : string) (perPage page : jsval) : string :=
  let page := nullish_or page (JNum (NInt 1)) in
  let perPage := truthy_or perPage (JNum (NInt 25)) in
  "/volumes/" +:+ volumeId +:+ "/actions?page=" +:+ ToString page
    +:+ "&per_page=" +:+ ToString perPage.

Definition getAllVolumeActions (request : Transport.RequestTool)
    (volumeId : string) (perPage page : jsval) : Eff jsval :=
  response ← Transport.get request (getAllVolumeActions_url volumeId perPage page);
  project "actions" response.

Definition getExistingVolumeAction (request : Transport.RequestTool)
    (volumeId : string) (actionId : jsval) : Eff jsval :=
  response ← Transport.get request
    ("/volumes/" +:+ volumeId +:+ "/actions/" +:+ ToString actionId);
  project "action" response.

End BlockStorageActionService.

(** ** [src/lib/services/floating-ip-actions-service.ts] *)

Module FloatingIPActionService.
Import JS Net.

(** Identifier resolution: the bindings of the function and of its module
    first, then the global object; an unbound name is a ReferenceError. *)
Definition resolve (scope : list (string * jsval)) (globals : gmap string jsval)
    (name : string) : completion jsval :=
  match lookup_prop name scope with
  | Some v => Normal v
  | None =>
      match globals !! name with
      | Some v => Normal v
      | None => Abrupt (ReferenceError (name +:+ " is not defined"))
      end
  end.

(** The imported [request] instance as a value. *)
Definition request_value (request : Transport.RequestTool) : jsval :=
  JObj [("baseUrl", JStr (Transport.baseUrl request));
        ("token", JStr (Transport.token request))].

Definition assignFloatingIPToDroplet (request : Transport.RequestTool)
    (floatingIPAddress dropletId : string) : Eff jsval :=
  let data := JObj [("droplet_id", JStr dropletId); ("type", JStr "assign")] in
  response ← Transport.post request
    ("/floating_ips/" +:+ floatingIPAddress +:+ "/actions") data;
  BlockStorageActionService.project "action" response.

(** [unassignFloatingIP]: the second argument of [request.post] is the
    identifier [redataquest], resolved after the path has been built and
    before the call. *)
Definition unassignFloatingIP (globals : gmap string jsval)
    (request : Transport.RequestTool) (floatingIPAddress : string) : Eff jsval :=
  let data := JObj [("type", JStr "unassign")] in
  let scope := [("request", request_value request);
                ("floatingIPAddress", JStr floatingIPAddress);
                ("data", data)] in
  let path := "/floating_ips/" +:+ floatingIPAddress +:+ "/actions" in
  value ← lift (resolve scope globals "redataquest");
  response ← Transport.post request path value;
  BlockStorageActionService.project "action" response.

End FloatingIPActionService.

(** ** [ActionService] *)

Module ActionService.
Import JS Net.

(** The [url] constant of [getAllActions]. *)
Definition getAllActions_url (perPage page : jsval) : string :=
  let page := BlockStorageActionService.truthy_or page (JNum (NInt 1)) in
  let perPage := BlockStorageActionService.truthy_or perPage (JNum (NInt 25)) in
  "/actions?page=" +:+ ToString page +:+ "&per_page=" +:+ ToString perPage.

Definition getAllActions (request : Transport.RequestTool) (perPage page : jsval)
  : Eff jsval :=
  response ← Transport.get request (getAllActions_url perPage page);
  BlockStorageActionService.project "actions" response.

Definition getExistingAction (request : Transport.RequestTool) (id : jsval) : Eff jsval :=
  response ← Transport.get request ("/actions/" +:+ ToString id);
  BlockStorageActionService.project "action" response.

End ActionService.

(** ** [src/lib/services/block-storage-service.ts] *)

Module BlockStorageService.
Import JS Net.

Definition required_fields_missing : js_error :=
  Error "Required fields missing from Block Storage Object".

(** The continuation [() => undefined], and the end of an [async] method
    that awaits a call and returns nothing. *)
Definition discard (response : Result) : Eff jsval := mret JUndefined.

(** [!vol.size_gigabytes || !vol.name]. *)
Definition volumeIsValid (vol : jsval) : completion bool :=
  size_gigabytes ← get_prop vol "size_gigabytes";
  if negb (truthy size_gigabytes) then mret false
  else
    name ← get_prop vol "name";
    if negb (truthy name) then mret false else mret true.

Definition getAllBlockStorage (request : Transport.RequestTool) : Eff jsval :=
  response ← Transport.get request "/volumes";
  BlockStorageActionService.project "volumes" response.

Definition createBlockStorage (request : Transport.RequestTool) (volume : jsval)
  : Eff jsval :=
  valid ← lift (volumeIsValid volume);
  if negb valid then throw required_fields_missing
  else
    response ← Transport.post request "/volumes" volume;
    BlockStorageActionService.project "volume" response.

Definition getBlockStorageById (request : Transport.RequestTool) (id : string)
  : Eff jsval :=
  response ← Transport.get request ("/volumes/" +:+ id);
  BlockStorageActionService.project "volume" response.

(** The path of the two by-name operations: both arguments go into the
    query string as they are. *)
Definition by_name_path (name regionSlug : string) : string :=
  "/volumes?name=" +:+ name +:+ "&region=" +:+ regionSlug.

Definition getBlockStorageByName (request : Transport.RequestTool)
    (name regionSlug : string) : Eff jsval :=
  response ← Transport.get request (by_name_path name regionSlug);
  BlockStorageActionService.project "volumes" response.

Definition getSnapshotsForVolume (request : Transport.RequestTool) (id : string)
  : Eff jsval :=
  response ← Transport.get request ("/volumes/" +:+ id +:+ "/snapshots");
  BlockStorageActionService.project "snapshots" response.

Definition createSnapshotFromVolume (request : Transport.RequestTool)
    (id name : string) : Eff jsval :=
  response ← Transport.post request ("/volumes/" +:+ id +:+ "/snapshots")
                (JObj [("name", JStr name)]);
  BlockStorageActionService.project "snapshot" response.

Definition deleteBlockStorageById (request : Transport.RequestTool) (id : string)
  : Eff jsval :=
  response ← Transport.delete request ("/volumes/" +:+ id) JUndefined;
  discard response.

Definition deleteBlockStorageByName (request : Transport.RequestTool)
    (name regionSlug : string) : Eff jsval :=
  response ← Transport.delete request (by_name_path name regionSlug) JUndefined;
  discard response.

End BlockStorageService.

(** ** [src/lib/services/tag-service.ts] *)

Module TagService.
Import JS Net.

(** [id => ({resource_id: id, resource_type: 'droplet'})]. *)
Definition resource (id : string) : jsval :=
  JObj [("resource_id", JStr id); ("resource_type", JStr "droplet")].

Definition createTag (request : Transport.RequestTool) (name : string) : Eff jsval :=
  response ← Transport.post request "/tags" (JObj [("name", JStr name)]);
  BlockStorageActionService.project "tag" response.

Definition getTags (request : Transport.RequestTool) : Eff jsval :=
  response ← Transport.get request "/tags";
  BlockStorageActionService.project "tags" response.

Definition getTagByName (request : Transport.RequestTool) (tagName : string)
  : Eff jsval :=
  response ← Transport.get request ("/tags/" +:+ tagName);
  BlockStorageActionService.project "tag" response.

Definition tagResources (request : Transport.RequestTool) (tagName : string)
    (resourceIds : list string) : Eff jsval :=
  let resources := JArr (map resource resourceIds) in
  response ← Transport.post request ("/tags/" +:+ tagName +:+ "/resources")
                (JObj [("resources", resources)]);
  BlockStorageService.discard response.

Definition removeTagFromResources (request : Transport.RequestTool)
    (tagName : string) (resourceIds : list string) : Eff jsval :=
  let resources := JArr (map resource resourceIds) in
  response ← Transport.delete request ("/tags/" +:+ tagName +:+ "/resources")
                (JObj [("data", JObj [("resources", resources)])]);
  BlockStorageService.discard response.

(** [deleteTag] returns the promise of the transport itself. *)
Definition deleteTag (request : Transport.RequestTool) (tagName : string)
  : Eff Result :=
  Transport.delete request ("/tags/" +:+ tagName) JUndefined.

End TagService.

(** ** [SnapshotService] *)

Module SnapshotService.
Import JS Net.

(** [v !== s] for a string literal [s]. *)
Definition strict_ne_string (v : jsval) (s : string) : bool :=
  match v with
  | JStr s' => negb (String.eqb s' s)
  | _ => true
  end.

(** The [url] variable of [getSnapshots]; an omitted argument is
    [undefined]. *)
Definition getSnapshots_url (resourceType : jsval) : string :=
  let url := "/snapshots" in
  if truthy resourceType && strict_ne_string resourceType "all"
  then url +:+ "?resource_type=" +:+ ToString resourceType
  else url.

Definition getSnapshots (request : Transport.RequestTool) (resourceType : jsval)
  : Eff jsval :=
  response ← Transport.get request (getSnapshots_url resourceType);
  BlockStorageActionService.project "snapshots" response.

Definition getSnapshotById (request : Transport.RequestTool) (snapshotId : string)
  : Eff jsval :=
  response ← Transport.get request ("/snapshots/" +:+ snapshotId);
  BlockStorageActionService.project "snapshot" response.

Definition deleteSnapshot (request : Transport.RequestTool) (snapshotId : string)
  : Eff jsval :=
  response ← Transport.delete request ("/snapshots/" +:+ snapshotId) JUndefined;
  BlockStorageService.discard response.

End SnapshotService.

(** ** [src/lib/services/image-service.ts] *)

Module ImageService.
Import JS Net.

(** [a ? a : b]. *)
Definition conditional (a b : jsval) : jsval := if truthy a then a else b.

(** The path of the three paginated lists, after their filter. *)
Definition paginated (filter : string) (perPage page : jsval) : string :=
  let page := conditional page (JNum (NInt 1)) in
  let perPage := conditional perPage (JNum (NInt 25)) in
  "/images?" +:+ filter +:+ "&page=" +:+ ToString page
    +:+ "&per_page=" +:+ ToString perPage.

Definition getAllDistributionImages (request : Transport.RequestTool)
    (perPage page : jsval) : Eff jsval :=
  response ← Transport.get request (paginated "type=distribution" perPage page);
  BlockStorageActionService.project "images" response.

Definition getAllApplicationImages (request : Transport.RequestTool)
    (perPage page : jsval) : Eff jsval :=
  response ← Transport.get request (paginated "type=application" perPage page);
  BlockStorageActionService.project "images" response.

Definition getUserImages (request : Transport.RequestTool)
    (perPage page : jsval) : Eff jsval :=
  response ← Transport.get request (paginated "private=true" perPage page);
  BlockStorageActionService.project "images" response.

Definition deleteImage (request : Transport.RequestTool) (imageId : jsval)
  : Eff jsval :=
  response ← Transport.delete request ("/images/" +:+ ToString imageId) JUndefined;
  BlockStorageService.discard response.

End ImageService.

(** ** [src/lib/services/kubernetes-service.ts] *)

Module KubernetesService.
Import JS Net.

(** [flag ? 1 : 0]. *)
Definition bit (flag : jsval) : jsval :=
  if truthy flag then JNum (NInt 1) else JNum (NInt 0).

(** The [url] constant of [deleteNodeFromNodePoolForCluster]. *)
Definition deleteNode_url (clusterId nodePoolId nodeId : string)
    (skipDrain replace : jsval) : string :=
  "/kubernetes/clusters/" +:+ clusterId +:+ "/node_pools/" +:+ nodePoolId
    +:+ "/nodes/" +:+ nodeId +:+ "?skip_drain=" +:+ ToString (bit skipDrain)
    +:+ "&replace=" +:+ ToString (bit replace).

Definition deleteNodeFromNodePoolForCluster (request : Transport.RequestTool)
    (clusterId nodePoolId nodeId : string) (skipDrain replace : jsval) : Eff jsval :=
  let url := deleteNode_url clusterId nodePoolId nodeId skipDrain replace in
  response ← Transport.delete request url JUndefined;
  BlockStorageService.discard response.

End KubernetesService.

(** ** [FirewallService] *)

Module FirewallService.
Import JS Net.


Definition addDropletsToFirewall (request : Transport.RequestTool)
    (firewallId : string) (dropletIds : list jsnum) : Eff jsval :=
  let data := JObj [("droplet_ids", JArr (map JNum dropletIds))] in
  response ← Transport.post request ("/firewalls/" +:+ firewallId +:+ "/droplets") data;
  BlockStorageService.discard response.

Definition removeDropletsFromFirewall (request : Transport.RequestTool)
    (firewallId : string) (dropletIds : list jsnum) : Eff jsval :=
  let data := JObj [("droplet_ids", JArr (map JNum dropletIds))] in
  response ← Transport.delete request ("/firewalls/" +:+ firewallId +:+ "/droplets")
                (JObj [("data", data)]);
  BlockStorageService.discard response.

End FirewallService.

(** ** [CdnService] *)

Module CdnService.
Import JS Net.

Definition required_fields_missing : js_error :=
  Error "Required fields missing from Endpoint Object".

Definition endpointIsValid (endpoint : jsval) : completion bool :=
  origin ← get_prop endpoint "origin";
  if negb (truthy origin) then mret false else mret true.

Definition createEndpoint (request : Transport.RequestTool) (endpoint : jsval)
  : Eff jsval :=
  valid ← lift (endpointIsValid endpoint);
  if negb valid then throw required_fields_missing
  else
    response ← Transport.post request "/cdn/endpoints" endpoint;
    BlockStorageActionService.project "endpoint" response.

End CdnService.

(** ** Vocabulary of the statements *)

Module Spec.
Import JS Net.

(** The two kinds of classified error.  The code tags a rejection by the
    message of the [Error] it throws; that message is the kind. *)
Inductive error_kind : Type := ClientError | ServerError.

Definition kind (e : js_error) : option error_kind :=
  match e with
  | ErrorWith msg _ =>
      if String.eqb msg "Server Error Result" then Some ServerError
      else if String.eqb msg "Client Error Result" then Some ClientError
      else None
  | _ => None
  end.

(** The [response], [text] and [data] carried by a thrown value. *)
Definition payload (e : js_error) : option Result :=
  match e with
  | ErrorWith _ r => Some r
  | _ => None
  end.

(** The band a call ends in. *)
Inductive band : Type := Success | Failure (k : error_kind) | Unclassified.

Definition band_of (c : completion Result) : band :=
  match c with
  | Normal _ => Success
  | Abrupt e =>
      match kind e with
      | Some k => Failure k
      | None => Unclassified
      end
  end.


(** [s] between double quotes, to write JSON texts. *)
Definition quoted (s : string) : string := String dquote (s +:+ String dquote EmptyString).

(** The client of the scenarios. *)
Definition client : Transport.RequestTool :=
  Transport.mkRequestTool "https://api.digitalocean.com/v2" "secret".

(** Scenario: HTTP 202 with [{"action":{"id":9,"status":"in-progress"}}]. *)
Definition accepted_text : string :=
  "{" +:+ quoted "action" +:+ ":{" +:+ quoted "id" +:+ ":9," +:+ quoted "status"
      +:+ ":" +:+ quoted "in-progress" +:+ "}}".

Definition accepted : Response := mkResponse 202 "Accepted" [] (Some accepted_text).

Definition attach_request : jsval :=
  JObj [("type", JStr "attach"); ("droplet_id", JNum (NInt 42)); ("region", JStr "nyc1")].

(** Scenario: HTTP 404 with [{"id":"not_found"}]. *)
Definition not_found_text : string :=
  "{" +:+ quoted "id" +:+ ":" +:+ quoted "not_found" +:+ "}".

Definition not_found : Response := mkResponse 404 "Not Found" [] (Some not_found_text).

(** A world that gives the same answer to every request. *)
Definition always (resp : Response) : server := fun _ => Normal resp.

(** The five guarded operations of [BlockStorageActionService] under one
    name, with the fields each one requires and the path it posts to. *)
Inductive action_op : Type :=
  Attach | Detach | AttachByName | DetachByName | Resize.

Definition required (op : action_op) : list string :=
  match op with
  | Attach | Detach => ["type"; "droplet_id"]
  | AttachByName | DetachByName => ["type"; "droplet_id"; "volume_name"]
  | Resize => ["type"; "size_gigabytes"]
  end.

Definition invoke (request : Transport.RequestTool) (op : action_op)
    (volumeId : string) (actionRequest : jsval) : Eff jsval :=
  match op with
  | Attach => BlockStorageActionService.attachVolumeToDroplet request volumeId actionRequest
  | Detach => BlockStorageActionService.detachVolumeFromDroplet request volumeId actionRequest
  | AttachByName => BlockStorageActionService.attachVolumeToDropletByName request actionRequest
  | DetachByName => BlockStorageActionService.detachVolumeFromDropletByName request actionRequest
  | Resize => BlockStorageActionService.resizeVolume request volumeId actionRequest
  end.

Definition validator (op : action_op) : jsval -> completion bool :=
  match op with
  | Attach | Detach => BlockStorageActionService.attachActionIsValid
  | AttachByName | DetachByName => BlockStorageActionService.attachActionByNameIsValid
  | Resize => BlockStorageActionService.resizeActionIsValid
  end.

Definition action_path (op : action_op) (volumeId : string) : string :=
  match op with
  | AttachByName | DetachByName => "/volumes/actions"
  | Attach | Detach | Resize => "/volumes/" +:+ volumeId +:+ "/actions"
  end.

(** The value read from field [f] of an object with properties [props]. *)
Definition field (props : list (string * jsval)) (f : string) : jsval :=
  default JUndefined (lookup_prop f props).

(** The requests a computation issues. *)
Definition requests {A : Type} (m : Eff A) (srv : server) : list Request :=
  snd (run m srv).



(** What every request of the transport carries, and the [Content-Type] it
    carries for the entry point [v]. *)
Definition standard_headers (this : Transport.RequestTool) (v : Transport.verb)
    (r : Request) : Prop :=
  req_headers r !! "Accept" = Some "application/json, text/plain, */*" /\
  req_headers r !! "Authorization" = Some ("Bearer " +:+ Transport.token this) /\
  (req_headers r !! "Content-Type" = Some "application/json"
   <-> v ∈ [Transport.PUT; Transport.POST; Transport.PATCH]) /\
  (v ∈ [Transport.GET; Transport.HEAD; Transport.DELETE] ->
   req_headers r !! "Content-Type" = None).

End Spec.

(** ** Texts on the wire *)

Module Wire.
Import JS.
(** The text of an object with the given member texts, of a member, and of
    an array with the given element texts, as [JSON.stringify] lays them
    out. *)
Definition object_text (members : list string) : string :=
  "{" +:+ join "," members +:+ "}".
Definition member_text (key value : string) : string :=
  quote key +:+ ":" +:+ value.
Definition array_text (elements : list string) : string :=
  "[" +:+ join "," elements +:+ "]".

(** The text of one tagged resource and of the body that lists them. *)
Definition resource_text (id : string) : string :=
  object_text [member_text "resource_id" (quote id);
               member_text "resource_type" (quote "droplet")].
Definition resources_text (ids : list string) : string :=
  object_text [member_text "resources" (array_text (map resource_text ids))].

(** The text of a number in a body, and of a list of droplet ids. *)
Definition number_text (n : jsnum) : string :=
  match n with
  | NInt z => Z_to_string z
  | NNaN | NInf _ => "null"
  end.
Definition droplet_ids_text (ids : list jsnum) : string :=
  object_text [member_text "droplet_ids" (array_text (map number_text ids))].
End Wire.

(** ** Tactics *)

(** Membership in a list of distinct constants, and its refutation. *)
Ltac member := repeat first [apply list_elem_of_here | apply list_elem_of_further].
Ltac no_member :=
  repeat match goal with
         | H : _ ∈ _ :: _ |- _ =>
             apply elem_of_cons in H; destruct H as [H|H]; [discriminate H|]
         | H : _ ∈ [] |- _ => apply elem_of_nil in H; destruct H
         end.

(** A branch of the parser that cannot hold the result at hand. *)
Ltac dead := first [discriminate | intros; discriminate].

(** One step of the recursive-descent functions, the lexers kept folded. *)
Ltac unfold_parser :=
  cbn -[JS.parse_int JS.parse_chars JS.literal JS.skip_ws Ascii.eqb].

(** * Properties *)

Import JS Net Spec.

(** ** The platform *)

Lemma JSON_parse_null : JSON_parse JNull = Normal JNull.
Proof. reflexivity. Qed.

Example JSON_parse_text_object :
  JSON_parse_text (" { " +:+ quoted "ids" +:+ " : [1, -20, true, null, [], {}] } ")
  = Normal (JObj [("ids", JArr [JNum (NInt 1); JNum (NInt (-20)); JBool true; JNull;
                                JArr []; JObj []])]).
Proof. reflexivity. Qed.

Example JSON_parse_text_html :
  JSON_parse_text "<html>" = Abrupt (SyntaxError "Unexpected token in JSON").
Proof. reflexivity. Qed.

Example JSON_stringify_object :
  JSON_stringify (JObj [("a", JArr [JUndefined; JNum NNaN; JStr "x"]);
                        ("b", JUndefined); ("c", JBool false)])
  = Normal (Some ("{" +:+ quoted "a" +:+ ":[null,null," +:+ quoted "x" +:+ "],"
                      +:+ quoted "c" +:+ ":false}")).
Proof. reflexivity. Qed.

Example JSON_stringify_bigint :
  JSON_stringify (JArr [JNum (NInt 1); JBigInt 2])
  = Abrupt (TypeError "Do not know how to serialize a BigInt").
Proof. reflexivity. Qed.

Example JSON_stringify_function : JSON_stringify (JFun "() => 1") = Normal None.
Proof. reflexivity. Qed.

(** The decoding step of [#query] leaves [data] at [null] whatever the
    text is. *)
Lemma decode_step_null (t : option string) :
  match (if truthy (Transport.text_value t) then JSON_parse JNull else Normal JNull) with
  | Normal v => v
  | Abrupt _ => JNull
  end = JNull.
Proof. destruct (truthy (Transport.text_value t)); reflexivity. Qed.

(** ** The parser and its fuel *)

Local Close Scope Z_scope.

Lemma skip_ws_length (s : string) : String.length (skip_ws s) <= String.length s.
Proof.
  induction s as [|c r IH]; simpl; [lia|].
  destruct (is_ws c); simpl; lia.
Qed.

Lemma strip_prefix_length (p s r : string) :
  strip_prefix p s = Some r -> String.length r <= String.length s.
Proof.
  revert s. induction p as [|a p IH]; intros [|b s]; simpl; try discriminate.
  - intros [= <-]. simpl; lia.
  - intros [= <-]. simpl; lia.
  - destruct (Ascii.eqb a b); [|discriminate]. intros H. apply IH in H. lia.
Qed.

Lemma literal_length (tail : string) (v w : jsval) (r r' : string) :
  literal tail v r = POk w r' -> String.length r' <= String.length r.
Proof.
  unfold literal. destruct (strip_prefix tail r) eqn:E; [|discriminate].
  intros [= _ <-]. eapply strip_prefix_length, E.
Qed.

Lemma literal_fuel (tail : string) (v : jsval) (r : string) : literal tail v r <> PFuel.
Proof. unfold literal. destruct (strip_prefix tail r); discriminate. Qed.

(** The string lexer stops, and reads the closing quote at least. *)
Lemma parse_chars_bounded (n : nat) :
  forall s acc, String.length s <= n ->
    parse_chars s acc <> PFuel /\
    (forall v r, parse_chars s acc = POk v r -> String.length r < String.length s).
Proof.
  induction n as [|n IH]; intros s acc Hn.
  - destruct s; simpl in *; [|lia]. split; [discriminate|intros; discriminate].
  - destruct s as [|c r]; [split; [discriminate|intros; discriminate]|].
    simpl in Hn. cbn [parse_chars].
    destruct (Ascii.eqb c dquote).
    { split; [discriminate|]. intros v r' [= _ <-]. simpl; lia. }
    destruct (Ascii.eqb c backslash).
    { destruct r as [|e r']; [split; [discriminate|intros; discriminate]|].
      simpl in Hn.
      destruct (Ascii.eqb e "u").
      - destruct r' as [|h1 [|h2 [|h3 [|h4 r'']]]];
          try (split; [discriminate|intros; discriminate]).
        simpl in Hn.
        destruct (hex_of h1), (hex_of h2), (hex_of h3), (hex_of h4);
          try (split; [discriminate|intros; discriminate]).
        destruct (IH r'' (acc +:+ utf8 (((n0 * 16 + n1) * 16 + n2) * 16 + n3)%N)) as [H1 H2]; [lia|].
        split; [exact H1|]. intros v r0 H. apply H2 in H. simpl. lia.
      - destruct (unescape e); [|split; [discriminate|intros; discriminate]].
        destruct (IH r' (acc +:+ String a EmptyString)) as [H1 H2]; [lia|].
        split; [exact H1|]. intros v r0 H. apply H2 in H. simpl. lia. }
    destruct (N_of_ascii c <? 32)%N; [split; [discriminate|intros; discriminate]|].
    destruct (IH r (acc +:+ String c EmptyString)) as [H1 H2]; [lia|].
    split; [exact H1|]. intros v r0 H. apply H2 in H. simpl. lia.
Qed.

Lemma parse_digits_length (s : string) :
  forall acc z r, parse_digits s acc = (z, r) -> String.length r <= String.length s.
Proof.
  induction s as [|c s IH]; intros acc z r; simpl.
  - intros [= _ <-]. simpl; lia.
  - destruct (digit_of c).
    + intros H. apply IH in H. lia.
    + intros [= _ <-]. simpl; lia.
Qed.

Lemma number_end_rest (negative : bool) (z : Z) (rest : string) (v : jsval) (r : string) :
  number_end negative z rest = POk v r -> r = rest.
Proof.
  unfold number_end. destruct rest as [|c rest'].
  - destruct (z <=? 2 ^ 53)%Z; [|discriminate]. intros [= _ <-]. reflexivity.
  - destruct (_ || _); [discriminate|].
    destruct (z <=? 2 ^ 53)%Z; [|discriminate]. intros [= _ <-]. reflexivity.
Qed.

Lemma number_end_fuel (negative : bool) (z : Z) (rest : string) :
  number_end negative z rest <> PFuel.
Proof.
  unfold number_end. destruct rest as [|c rest'].
  - destruct (z <=? 2 ^ 53)%Z; discriminate.
  - destruct (_ || _); [discriminate|]. destruct (z <=? 2 ^ 53)%Z; discriminate.
Qed.

Lemma parse_int_length (negative : bool) (s : string) (v : jsval) (r : string) :
  parse_int negative s = POk v r -> String.length r < String.length s.
Proof.
  unfold parse_int. destruct s as [|c s']; [discriminate|].
  destruct (digit_of c) as [d|]; [|discriminate].
  destruct d as [|p|p].
  - intros H. apply number_end_rest in H. subst. simpl; lia.
  - destruct (parse_digits s' (Z.pos p)) as [z rest] eqn:E.
    intros H. apply number_end_rest in H. subst.
    apply parse_digits_length in E. simpl; lia.
  - destruct (parse_digits s' (Z.neg p)) as [z rest] eqn:E.
    intros H. apply number_end_rest in H. subst.
    apply parse_digits_length in E. simpl; lia.
Qed.

Lemma parse_int_fuel (negative : bool) (s : string) : parse_int negative s <> PFuel.
Proof.
  unfold parse_int. destruct s as [|c s']; [discriminate|].
  destruct (digit_of c) as [d|]; [|discriminate].
  destruct d as [|p|p]; [apply number_end_fuel | |];
    destruct (parse_digits s' _) as [z rest]; apply number_end_fuel.
Qed.

(** A successful parse reads at least one character. *)
Lemma parse_consumes (fuel : nat) :
  (forall s v r, parse_value fuel s = POk v r -> String.length r < String.length s) /\
  (forall s acc v r, parse_elements fuel s acc = POk v r ->
                     String.length r < String.length s) /\
  (forall s acc v r, parse_members fuel s acc = POk v r ->
                     String.length r < String.length s).
Proof.
  induction fuel as [|f [IHv [IHe IHm]]]; [repeat split; dead|].
  split; [|split].
  - intros s v r. unfold_parser. pose proof (skip_ws_length s) as Hs.
    destruct (skip_ws s) as [|c t] eqn:Es; [dead|]. simpl in Hs.
    destruct (Ascii.eqb c "n"); [intros H%literal_length; lia|].
    destruct (Ascii.eqb c "t"); [intros H%literal_length; lia|].
    destruct (Ascii.eqb c "f"); [intros H%literal_length; lia|].
    destruct (Ascii.eqb c dquote).
    { destruct (parse_chars t EmptyString) as [str r'| |] eqn:Ec; try dead.
      intros [= _ <-].
      destruct (parse_chars_bounded _ t EmptyString (le_n _)) as [_ H]. apply H in Ec. lia. }
    destruct (Ascii.eqb c "-"); [intros H%parse_int_length; lia|].
    destruct (Ascii.eqb c "[").
    { pose proof (skip_ws_length t) as Ht.
      destruct (skip_ws t) as [|c' t'] eqn:Et; [dead|]. simpl in Ht.
      destruct (Ascii.eqb c' "]"); [intros [= _ <-]; lia|].
      intros H%IHe. lia. }
    destruct (Ascii.eqb c "{").
    { pose proof (skip_ws_length t) as Ht.
      destruct (skip_ws t) as [|c' t'] eqn:Et; [dead|]. simpl in Ht.
      destruct (Ascii.eqb c' "}"); [intros [= _ <-]; lia|].
      intros H%IHm. lia. }
    intros H%parse_int_length. simpl in H. lia.
  - intros s acc v r. unfold_parser.
    destruct (parse_value f s) as [w r1| |] eqn:Ev; try dead. apply IHv in Ev.
    pose proof (skip_ws_length r1) as H1.
    destruct (skip_ws r1) as [|c r2]; [dead|]. simpl in H1.
    destruct (Ascii.eqb c ","); [intros H%IHe; lia|].
    destruct (Ascii.eqb c "]"); [intros [= _ <-]; lia|dead].
  - intros s acc v r. unfold_parser. pose proof (skip_ws_length s) as Hs.
    destruct (skip_ws s) as [|c t]; [dead|]. simpl in Hs.
    destruct (Ascii.eqb c dquote); [|dead].
    destruct (parse_chars t EmptyString) as [k r1| |] eqn:Ec; try dead.
    destruct (parse_chars_bounded _ t EmptyString (le_n _)) as [_ H]. apply H in Ec.
    pose proof (skip_ws_length r1) as H1.
    destruct (skip_ws r1) as [|c1 r2]; [dead|]. simpl in H1.
    destruct (Ascii.eqb c1 ":"); [|dead].
    destruct (parse_value f r2) as [w r3| |] eqn:Ev; try dead. apply IHv in Ev.
    pose proof (skip_ws_length r3) as H3.
    destruct (skip_ws r3) as [|c3 r4]; [dead|]. simpl in H3.
    destruct (Ascii.eqb c3 ","); [intros H'%IHm; lia|].
    destruct (Ascii.eqb c3 "}"); [intros [= _ <-]; lia|dead].
Qed.

(** With more fuel than twice the length of the input, no function of the
    parser runs out of it. *)
Lemma parse_fuel_enough (fuel : nat) :
  (forall s, 2 * String.length s < fuel -> parse_value fuel s <> PFuel) /\
  (forall s acc, 2 * String.length s + 1 < fuel -> parse_elements fuel s acc <> PFuel) /\
  (forall s acc, 2 * String.length s + 1 < fuel -> parse_members fuel s acc <> PFuel).
Proof.
  induction fuel as [|f [IHv [IHe IHm]]]; [repeat split; intros; lia|].
  split; [|split].
  - intros s Hf. unfold_parser. pose proof (skip_ws_length s) as Hs.
    destruct (skip_ws s) as [|c t] eqn:Es; [dead|]. simpl in Hs.
    destruct (Ascii.eqb c "n"); [apply literal_fuel|].
    destruct (Ascii.eqb c "t"); [apply literal_fuel|].
    destruct (Ascii.eqb c "f"); [apply literal_fuel|].
    destruct (Ascii.eqb c dquote).
    { destruct (parse_chars_bounded _ t EmptyString (le_n _)) as [H _].
      destruct (parse_chars t EmptyString); [dead|dead|congruence]. }
    destruct (Ascii.eqb c "-"); [apply parse_int_fuel|].
    destruct (Ascii.eqb c "[").
    { pose proof (skip_ws_length t) as Ht.
      destruct (skip_ws t) as [|c' t'] eqn:Et; [dead|]. simpl in Ht.
      destruct (Ascii.eqb c' "]"); [dead|]. apply IHe. lia. }
    destruct (Ascii.eqb c "{").
    { pose proof (skip_ws_length t) as Ht.
      destruct (skip_ws t) as [|c' t'] eqn:Et; [dead|]. simpl in Ht.
      destruct (Ascii.eqb c' "}"); [dead|]. apply IHm. lia. }
    apply parse_int_fuel.
  - intros s acc Hf. unfold_parser.
    pose proof (IHv s ltac:(lia)) as Hv.
    destruct (parse_value f s) as [w r1| |] eqn:Ev; [|dead|congruence].
    apply (proj1 (parse_consumes f)) in Ev.
    pose proof (skip_ws_length r1) as H1.
    destruct (skip_ws r1) as [|c r2]; [dead|]. simpl in H1.
    destruct (Ascii.eqb c ","); [apply IHe; lia|].
    destruct (Ascii.eqb c "]"); dead.
  - intros s acc Hf. unfold_parser. pose proof (skip_ws_length s) as Hs.
    destruct (skip_ws s) as [|c t]; [dead|]. simpl in Hs.
    destruct (Ascii.eqb c dquote); [|dead].
    destruct (parse_chars_bounded _ t EmptyString (le_n _)) as [Hc1 Hc2].
    destruct (parse_chars t EmptyString) as [k r1| |] eqn:Ec; [|dead|congruence].
    specialize (Hc2 _ _ eq_refl).
    pose proof (skip_ws_length r1) as H1.
    destruct (skip_ws r1) as [|c1 r2]; [dead|]. simpl in H1.
    destruct (Ascii.eqb c1 ":"); [|dead].
    pose proof (IHv r2 ltac:(lia)) as Hv.
    destruct (parse_value f r2) as [w r3| |] eqn:Ev; [|dead|congruence].
    apply (proj1 (parse_consumes f)) in Ev.
    pose proof (skip_ws_length r3) as H3.
    destruct (skip_ws r3) as [|c3 r4]; [dead|]. simpl in H3.
    destruct (Ascii.eqb c3 ","); [apply IHm; lia|].
    destruct (Ascii.eqb c3 "}"); dead.
Qed.

(** So the fuel [JSON_parse_text] starts with is never exhausted: a text is
    either parsed or a syntax error. *)
Lemma JSON_parse_text_fuel (s : string) :
  parse_value (2 * String.length s + 2) s <> PFuel.
Proof. apply (proj1 (parse_fuel_enough _)). lia. Qed.

Local Open Scope Z_scope.
Local Open Scope string_scope.

(** ** Running [#query] *)

Section QueryRuns.
Variable this : Transport.RequestTool.
Variables method path : string.
Variable body : jsval.
Variable srv : server.

(** A body that does not serialize ends the call before [fetch]. *)
Lemma query_run_throw (e : js_error) :
  Transport.opts_body body = Abrupt e ->
  run (Transport.query this method path body) srv = (Abrupt e, []).
Proof.
  intros H. unfold run, Transport.query, mbind, Eff_bind, lift. rewrite H. reflexivity.
Qed.

(** A rejected [fetch] rejects the call, after one request. *)
Lemma query_run_reject (b : option string) (e : js_error) :
  Transport.opts_body body = Normal b ->
  srv (Transport.request_of this method path b) = Abrupt e ->
  run (Transport.query this method path body) srv
  = (Abrupt e, [Transport.request_of this method path b]).
Proof.
  intros H Hs. unfold run, Transport.query, mbind, Eff_bind, lift, fetch.
  rewrite H. fold (Transport.request_of this method path b). rewrite Hs. reflexivity.
Qed.

(** An answered [fetch]: one request, and the outcome by status. *)
Lemma query_run_response (b : option string) (resp : Response) :
  Transport.opts_body body = Normal b ->
  srv (Transport.request_of this method path b) = Normal resp ->
  run (Transport.query this method path body) srv
  = (let r := mkResult resp (resp_body resp) JNull in
     if (status resp >? 500)%Z then Abrupt (ErrorWith "Server Error Result" r)
     else if (status resp >? 400)%Z then Abrupt (ErrorWith "Client Error Result" r)
     else Normal r,
     [Transport.request_of this method path b]).
Proof.
  intros H Hs. unfold run, Transport.query, mbind, Eff_bind, lift, fetch.
  rewrite H. fold (Transport.request_of this method path b). rewrite Hs.
  cbv zeta. rewrite decode_step_null.
  destruct (status resp >? 500)%Z; [reflexivity|].
  destruct (status resp >? 400)%Z; reflexivity.
Qed.

(** The log of a call: empty when serialization throws, else the one
    request built from the method, the path and the serialized body. *)
Lemma query_log :
  snd (run (Transport.query this method path body) srv)
  = match Transport.opts_body body with
    | Normal b => [Transport.request_of this method path b]
    | Abrupt _ => []
    end.
Proof.
  destruct (Transport.opts_body body) as [b|e] eqn:H.
  - destruct (srv (Transport.request_of this method path b)) as [resp|e] eqn:Hs.
    + rewrite (query_run_response b resp H Hs). reflexivity.
    + rewrite (query_run_reject b e H Hs). reflexivity.
  - rewrite (query_run_throw e H). reflexivity.
Qed.
End QueryRuns.

Lemma call_query (this : Transport.RequestTool) (v : Transport.verb)
    (path : string) (value : jsval) :
  Transport.call this v path value
  = Transport.query this (Transport.verb_method v) path (Transport.verb_body v value).
Proof. destruct v; reflexivity. Qed.

(** ** Serialization *)


Lemma stringify_arr (elems : list jsval) :
  stringify (JArr elems)
  = match stringify_elements elems with
    | Abrupt err => Abrupt err
    | Normal ss => Normal (Some ("[" +:+ join "," ss +:+ "]"))
    end.
Proof. reflexivity. Qed.

Lemma stringify_obj (props : list (string * jsval)) :
  stringify (JObj props)
  = match stringify_members props with
    | Abrupt err => Abrupt err
    | Normal ss => Normal (Some ("{" +:+ join "," ss +:+ "}"))
    end.
Proof. reflexivity. Qed.






(** ** The transport: decoding and classification *)

(** Up to status 400 the call resolves; the Result holds the response and
    the raw text, and [null] as [data], whatever the text is. *)
Lemma query_resolves_up_to_400
    (this : Transport.RequestTool) (method path : string) (body : jsval)
    (srv : server) (b : option string) (resp : Response) :
  Transport.opts_body body = Normal b ->
  srv (Transport.request_of this method path b) = Normal resp ->
  (status resp <= 400)%Z ->
  fst (run (Transport.query this method path body) srv)
  = Normal (mkResult resp (resp_body resp) JNull).
Proof.
  intros Hb Hs Hle.
  rewrite (query_run_response this method path body srv b resp Hb Hs). cbn [fst].
  destruct (Z.gtb_spec (status resp) 500) as [Hgt|_]; [lia|].
  destruct (Z.gtb_spec (status resp) 400) as [Hgt|_]; [lia|reflexivity].
Qed.

(** C1, at the scenario of the spec: a POST answered by HTTP 202 with the
    JSON text of an action.  The text is valid JSON and parses to an object
    with an [action], the call resolves and [text] holds the raw body, but
    the [data] of the Result is [null], not the parsed value: the decoding
    step parses the variable [data] instead of [text]. *)
Theorem post_accepted_data_is_null :
  JSON_parse_text accepted_text
  = Normal (JObj [("action", JObj [("id", JNum (NInt 9));
                                   ("status", JStr "in-progress")])])
  /\ fst (run (Transport.post client "/volumes/v1/actions" attach_request)
              (always accepted))
     = Normal (mkResult accepted (Some accepted_text) JNull).
Proof. split; vm_compute; reflexivity. Qed.

(** C2: once a response has arrived, its status alone decides how the call
    ends.  Above 500 the call rejects with kind ServerError; above 400 and up
    to 500 it rejects with kind ClientError and the payload holds the
    response itself, so its status is the original one; and two calls whose
    responses have the same status end in the same band, whatever else
    differs between them. *)
Theorem query_classifies_by_status
    (this : Transport.RequestTool) (method path : string) (body : jsval)
    (srv : server) (b : option string) (resp : Response) :
  Transport.opts_body body = Normal b ->
  srv (Transport.request_of this method path b) = Normal resp ->
  let outcome := fst (run (Transport.query this method path body) srv) in
  ((status resp > 500)%Z ->
     exists e, outcome = Abrupt e /\ kind e = Some ServerError) /\
  ((400 < status resp <= 500)%Z ->
     exists e r, outcome = Abrupt e /\ kind e = Some ClientError /\
                 payload e = Some r /\ response r = resp /\
                 status (response r) = status resp) /\
  (forall this' method' path' body' srv' b' resp',
     Transport.opts_body body' = Normal b' ->
     srv' (Transport.request_of this' method' path' b') = Normal resp' ->
     status resp' = status resp ->
     band_of (fst (run (Transport.query this' method' path' body') srv'))
     = band_of outcome).
Proof.
  intros Hb Hs outcome. subst outcome.
  rewrite (query_run_response this method path body srv b resp Hb Hs). cbn [fst].
  split; [|split].
  - intros Hgt. destruct (Z.gtb_spec (status resp) 500) as [_|Hle]; [|lia].
    eexists. split; reflexivity.
  - intros [Hlo Hhi].
    destruct (Z.gtb_spec (status resp) 500) as [Hgt|_]; [lia|].
    destruct (Z.gtb_spec (status resp) 400) as [_|Hle]; [|lia].
    eexists. eexists. repeat split; reflexivity.
  - intros this' method' path' body' srv' b' resp' Hb' Hs' Heq.
    rewrite (query_run_response this' method' path' body' srv' b' resp' Hb' Hs').
    cbn [fst]. rewrite Heq.
    destruct (status resp >? 500)%Z; [reflexivity|].
    destruct (status resp >? 400)%Z; reflexivity.
Qed.

Lemma query_classifies_by_status_witness :
  exists e r,
    fst (run (Transport.query client "GET" "/droplets/999" JUndefined) (always not_found))
    = Abrupt e /\ kind e = Some ClientError /\
    payload e = Some r /\ response r = not_found /\ status (response r) = 404%Z.
Proof.
  destruct (query_classifies_by_status client "GET" "/droplets/999" JUndefined
              (always not_found) None not_found eq_refl eq_refl) as [_ [H _]].
  apply H. cbn. lia.
Defined.

(** C3, at the scenario of the spec: a GET answered by HTTP 404 with the
    text [{"id":"not_found"}].  The rejection is a ClientError that carries
    the response and the raw text, but its [data] is [null] although the
    text parses to an object whose [id] is [not_found]; reading [data.id]
    throws. *)
Theorem get_not_found_data_is_null :
  JSON_parse_text not_found_text = Normal (JObj [("id", JStr "not_found")])
  /\ fst (run (Transport.get client "/droplets/999") (always not_found))
      = Abrupt (ErrorWith "Client Error Result"
                  (mkResult not_found (Some not_found_text) JNull))
  /\ get_prop JNull "id" = Abrupt (TypeError "Cannot read properties of null").
Proof. repeat split; vm_compute; reflexivity. Qed.

(** ** The transport: headers and body *)


Lemma getHeaders_accept (this : Transport.RequestTool) (method : string) :
  Transport.getHeaders this method !! "Accept"
  = Some "application/json, text/plain, */*".
Proof.
  unfold Transport.getHeaders.
  repeat match goal with |- context [if ?c then _ else _] => destruct c end;
    rewrite ?lookup_insert_ne by discriminate; apply lookup_insert_eq.
Qed.

Lemma getHeaders_authorization (this : Transport.RequestTool) (method : string) :
  Transport.getHeaders this method !! "Authorization"
  = Some ("Bearer " +:+ Transport.token this).
Proof.
  unfold Transport.getHeaders.
  repeat match goal with |- context [if ?c then _ else _] => destruct c end;
    rewrite ?lookup_insert_ne by discriminate; apply lookup_insert_eq.
Qed.

(** The header is set exactly for the three lower-cased names of the
    [switch]. *)
Lemma getHeaders_content_type (this : Transport.RequestTool) (method : string) :
  Transport.getHeaders this method !! "Content-Type"
  = if bool_decide (toLowerCase method ∈ ["put"; "post"; "patch"])
    then Some "application/json" else None.
Proof.
  unfold Transport.getHeaders.
  destruct (String.eqb_spec (toLowerCase method) "put") as [->|H1].
  { rewrite lookup_insert_eq. reflexivity. }
  destruct (String.eqb_spec (toLowerCase method) "post") as [->|H2].
  { rewrite lookup_insert_eq. reflexivity. }
  destruct (String.eqb_spec (toLowerCase method) "patch") as [->|H3].
  { rewrite lookup_insert_eq. reflexivity. }
  rewrite bool_decide_eq_false_2.
  - rewrite !lookup_insert_ne by discriminate. apply lookup_empty.
  - rewrite !elem_of_cons, elem_of_nil. tauto.
Qed.

(** The headers of any request a transport call has issued. *)
Lemma issued_request_headers
    (this : Transport.RequestTool) (v : Transport.verb) (path : string)
    (value : jsval) (srv : server) (r : Request) :
  r ∈ snd (run (Transport.call this v path value) srv) ->
  req_headers r !! "Accept" = Some "application/json, text/plain, */*" /\
  req_headers r !! "Authorization" = Some ("Bearer " +:+ Transport.token this) /\
  (req_headers r !! "Content-Type" = Some "application/json"
   <-> v ∈ [Transport.PUT; Transport.POST; Transport.PATCH]) /\
  (v ∈ [Transport.GET; Transport.HEAD; Transport.DELETE] ->
   req_headers r !! "Content-Type" = None).
Proof.
  rewrite call_query, query_log.
  destruct (Transport.opts_body _) as [b|e]; [|intros H; inversion H].
  intros ->%list_elem_of_singleton. cbn [req_headers Transport.request_of].
  split; [apply getHeaders_accept|].
  split; [apply getHeaders_authorization|].
  rewrite getHeaders_content_type.
  destruct v; cbn; case_bool_decide as Hd; try solve [exfalso; no_member];
    try solve [exfalso; apply Hd; member];
    (split; [split; [intros H; try discriminate H; member
                    | intros H; try reflexivity; exfalso; no_member]
            | intros H; try reflexivity; exfalso; no_member]).
Qed.

(** C4: a transport call whose body serializes issues exactly one request,
    with the method of its entry point and the serialized body, and that
    request carries the [Accept] header and [Authorization: Bearer <token>];
    it carries [Content-Type: application/json] exactly when the entry point
    is [put], [post] or [patch], and none for [get], [head] and [delete].
    [get] and [head] always issue their request; and no request of any call
    has other headers than these. *)
Theorem call_headers
    (this : Transport.RequestTool) (v : Transport.verb) (path : string)
    (value : jsval) (srv : server) :
  (forall b,
     Transport.opts_body (Transport.verb_body v value) = Normal b ->
     exists r,
       requests (Transport.call this v path value) srv = [r] /\
       req_method r = Transport.verb_method v /\
       req_url r = Transport.baseUrl this +:+ path /\
       req_body r = b /\
       standard_headers this v r) /\
  (v ∈ [Transport.GET; Transport.HEAD] ->
     exists r,
       requests (Transport.call this v path value) srv = [r] /\
       req_body r = None /\ standard_headers this v r) /\
  (forall r,
     r ∈ requests (Transport.call this v path value) srv -> standard_headers this v r).
Proof.
  assert (Hissued : forall b,
            Transport.opts_body (Transport.verb_body v value) = Normal b ->
            requests (Transport.call this v path value) srv
            = [Transport.request_of this (Transport.verb_method v) path b]).
  { intros b Hb. unfold requests. rewrite call_query, query_log, Hb. reflexivity. }
  assert (Hall : forall r,
            r ∈ requests (Transport.call this v path value) srv ->
            standard_headers this v r).
  { intros r Hr. apply (issued_request_headers this v path value srv r Hr). }
  split; [|split].
  - intros b Hb. eexists. split; [apply (Hissued b Hb)|].
    split; [reflexivity|]. split; [reflexivity|]. split; [reflexivity|].
    apply Hall. rewrite (Hissued b Hb). apply list_elem_of_here.
  - intros Hv.
    assert (Hb : Transport.opts_body (Transport.verb_body v value) = Normal None).
    { destruct v; try reflexivity; exfalso; no_member. }
    eexists. split; [apply (Hissued None Hb)|]. split; [reflexivity|].
    apply Hall. rewrite (Hissued None Hb). apply list_elem_of_here.
  - exact Hall.
Qed.

Lemma call_headers_witness :
  (exists r,
     requests (Transport.call client Transport.POST "/volumes/v1/actions" attach_request)
              (always accepted) = [r] /\
     req_method r = "POST" /\
     req_body r = Some ("{" +:+ quoted "type" +:+ ":" +:+ quoted "attach" +:+ ","
                            +:+ quoted "droplet_id" +:+ ":42," +:+ quoted "region"
                            +:+ ":" +:+ quoted "nyc1" +:+ "}") /\
     req_headers r !! "Content-Type" = Some "application/json")
  /\ (exists r,
        requests (Transport.call client Transport.DELETE "/volumes/v1" JUndefined)
                 (always accepted) = [r] /\
        req_method r = "DELETE" /\
        req_headers r !! "Accept" = Some "application/json, text/plain, */*" /\
        req_headers r !! "Authorization" = Some "Bearer secret" /\
        req_headers r !! "Content-Type" = None).
Proof.
  split.
  - destruct (call_headers client Transport.POST "/volumes/v1/actions" attach_request
                (always accepted)) as [H _].
    destruct (H _ eq_refl) as [r [Hr [Hm [_ [Hb [_ [_ [Hct _]]]]]]]].
    exists r. split; [exact Hr|]. split; [exact Hm|]. split; [exact Hb|].
    apply Hct. member.
  - destruct (call_headers client Transport.DELETE "/volumes/v1" JUndefined
                (always accepted)) as [H _].
    destruct (H None eq_refl) as [r [Hr [Hm [_ [_ [Ha [Hauth [_ Hnone]]]]]]]].
    exists r. split; [exact Hr|]. split; [exact Hm|]. split; [exact Ha|].
    split; [exact Hauth|]. apply Hnone. member.
Defined.






(** ** The block-storage action service *)

Lemma forallb_false_elem {A : Type} (f : A -> bool) (l : list A) :
  (exists x, x ∈ l /\ f x = false) -> forallb f l = false.
Proof.
  intros [x [Hin Hx]]. induction Hin as [x l|x y l _ IH]; simpl.
  - rewrite Hx. reflexivity.
  - rewrite IH; [apply andb_false_r | exact Hx].
Qed.

Lemma forallb_true_elem {A : Type} (f : A -> bool) (l : list A) :
  (forall x, x ∈ l -> f x = true) -> forallb f l = true.
Proof.
  induction l as [|y l IH]; intros H; simpl; [reflexivity|].
  rewrite (H y) by apply list_elem_of_here.
  apply IH. intros x Hx. apply H, list_elem_of_further, Hx.
Qed.

(** On an object, each validator answers the conjunction of the truthiness
    of the fields it names: a field passes when the value read from it is
    truthy, not when it is present. *)
Lemma validator_truthiness (op : action_op) (props : list (string * jsval)) :
  validator op (JObj props)
  = Normal (forallb (fun f => truthy (field props f)) (required op)).
Proof.
  destruct op; cbn -[truthy lookup_prop];
    unfold BlockStorageActionService.attachActionByNameIsValid,
           BlockStorageActionService.attachActionIsValid,
           BlockStorageActionService.resizeActionIsValid,
           mbind, completion_bind, mret, completion_ret, get_prop, field;
    repeat match goal with
           | |- context [truthy ?v] => destruct (truthy v); cbn
           end; reflexivity.
Qed.

(** A projection after a call adds no request. *)
Lemma requests_project (m : Eff Result) (name : string) (srv : server) :
  requests (response ← m; BlockStorageActionService.project name response) srv
  = requests m srv.
Proof.
  unfold requests, run, mbind, Eff_bind, BlockStorageActionService.project, lift.
  destruct (m srv []) as [[r|e] log]; reflexivity.
Qed.

(** A failed validation ends the operation before the transport. *)
Lemma invoke_invalid (request : Transport.RequestTool) (op : action_op)
    (volumeId : string) (actionRequest : jsval) (srv : server) :
  validator op actionRequest = Normal false ->
  run (invoke request op volumeId actionRequest) srv
  = (Abrupt BlockStorageActionService.required_fields_missing, []).
Proof.
  intros H. destruct op; cbn in H |- *;
    unfold run, BlockStorageActionService.attachVolumeToDroplet,
           BlockStorageActionService.detachVolumeFromDroplet,
           BlockStorageActionService.attachVolumeToDropletByName,
           BlockStorageActionService.detachVolumeFromDropletByName,
           BlockStorageActionService.resizeVolume, mbind, Eff_bind, lift;
    rewrite H; reflexivity.
Qed.

(** A passed validation hands the request to [post]. *)
Lemma invoke_valid (request : Transport.RequestTool) (op : action_op)
    (volumeId : string) (actionRequest : jsval) (srv : server) :
  validator op actionRequest = Normal true ->
  run (invoke request op volumeId actionRequest) srv
  = run (response ← Transport.post request (action_path op volumeId) actionRequest;
         BlockStorageActionService.project "action" response) srv.
Proof.
  intros H. destruct op; cbn in H |- *;
    unfold run, BlockStorageActionService.attachVolumeToDroplet,
           BlockStorageActionService.detachVolumeFromDroplet,
           BlockStorageActionService.attachVolumeToDropletByName,
           BlockStorageActionService.detachVolumeFromDropletByName,
           BlockStorageActionService.resizeVolume;
    unfold mbind at 1, Eff_bind at 1, lift; rewrite H; reflexivity.
Qed.

(** C6, as stated, does not hold: an attach request whose [type] and
    [droplet_id] are both present, with [droplet_id] equal to 0, issues no
    POST. *)
Lemma present_fields_do_not_force_post :
  ~ (forall (request : Transport.RequestTool) (op : action_op) (volumeId : string)
            (props : list (string * jsval)) (srv : server),
       ((exists f, f ∈ required op /\ lookup_prop f props = None) ->
          run (invoke request op volumeId (JObj props)) srv
          = (Abrupt BlockStorageActionService.required_fields_missing, [])) /\
       ((forall f, f ∈ required op -> is_Some (lookup_prop f props)) ->
          exists r, r ∈ requests (invoke request op volumeId (JObj props)) srv /\
                    req_method r = "POST")).
Proof.
  intros H.
  destruct (H client Attach "v1"
              [("type", JStr "attach"); ("droplet_id", JNum (NInt 0))]
              (always accepted)) as [_ Hpost].
  destruct Hpost as [r [Hin _]].
  - intros f Hf. cbn in Hf.
    apply elem_of_cons in Hf. destruct Hf as [->|Hf]; [vm_compute; eauto|].
    apply list_elem_of_singleton in Hf. subst f. vm_compute. eauto.
  - vm_compute in Hin. inversion Hin.
Qed.

(** C6, amended: when a required field is absent or holds a falsy value the
    operation ends with the validation error and no request is issued; when
    every required field holds a truthy value the request is handed to
    [post], and once it serializes exactly one POST goes out, to the path of
    the operation, with the serialized request as body. *)
Theorem action_post_guarded_by_truthy_fields
    (request : Transport.RequestTool) (op : action_op) (volumeId : string)
    (props : list (string * jsval)) (srv : server) :
  ((exists f, f ∈ required op /\
              (lookup_prop f props = None \/
               exists v, lookup_prop f props = Some v /\ truthy v = false)) ->
     run (invoke request op volumeId (JObj props)) srv
     = (Abrupt BlockStorageActionService.required_fields_missing, [])) /\
  ((forall f, f ∈ required op ->
              exists v, lookup_prop f props = Some v /\ truthy v = true) ->
     forall b, JSON_stringify (JObj props) = Normal b ->
       requests (invoke request op volumeId (JObj props)) srv
       = [Transport.request_of request "POST" (action_path op volumeId) b]).
Proof.
  split.
  - intros [f [Hin Hf]]. apply invoke_invalid.
    rewrite validator_truthiness. f_equal. apply forallb_false_elem.
    exists f. split; [exact Hin|]. unfold field.
    destruct Hf as [->|[v [-> Hv]]]; [reflexivity | exact Hv].
  - intros Hall b Hb. unfold requests.
    rewrite invoke_valid.
    + fold (requests (response ← Transport.post request (action_path op volumeId)
                                   (JObj props);
                      BlockStorageActionService.project "action" response) srv).
      rewrite requests_project. unfold requests, Transport.post.
      rewrite query_log. cbn [Transport.opts_body]. rewrite Hb. reflexivity.
    + rewrite validator_truthiness. f_equal. apply forallb_true_elem.
      intros f Hin. destruct (Hall f Hin) as [v [Hv Ht]]. unfold field.
      rewrite Hv. exact Ht.
Qed.

Lemma action_post_guarded_by_truthy_fields_witness :
  run (invoke client Resize "v1" (JObj [("type", JStr "resize")])) (always accepted)
  = (Abrupt BlockStorageActionService.required_fields_missing, [])
  /\ requests (invoke client Attach "v1" attach_request) (always accepted)
      = [Transport.request_of client "POST" "/volumes/v1/actions"
           (Some ("{" +:+ quoted "type" +:+ ":" +:+ quoted "attach" +:+ ","
                      +:+ quoted "droplet_id" +:+ ":42," +:+ quoted "region"
                      +:+ ":" +:+ quoted "nyc1" +:+ "}"))].
Proof.
  split.
  - apply (action_post_guarded_by_truthy_fields client Resize "v1"
             [("type", JStr "resize")] (always accepted)).
    exists "size_gigabytes". split; [vm_compute; member | left; reflexivity].
  - apply (action_post_guarded_by_truthy_fields client Attach "v1"
             [("type", JStr "attach"); ("droplet_id", JNum (NInt 42));
              ("region", JStr "nyc1")] (always accepted)).
    + intros f Hf. cbn in Hf.
      apply elem_of_cons in Hf. destruct Hf as [->|Hf]; [vm_compute; eauto|].
      apply list_elem_of_singleton in Hf. subst f. vm_compute. eauto.
    + reflexivity.
Defined.

(** C10: the validators test truthiness.  A required field that is present
    with a falsy value makes the validator answer false, and the operation
    ends with the same error as for a missing field, without a request. *)
Theorem falsy_required_field_is_rejected
    (request : Transport.RequestTool) (op : action_op) (volumeId : string)
    (props : list (string * jsval)) (srv : server) (f : string) (v : jsval) :
  f ∈ required op ->
  lookup_prop f props = Some v ->
  truthy v = false ->
  validator op (JObj props) = Normal false /\
  run (invoke request op volumeId (JObj props)) srv
  = (Abrupt BlockStorageActionService.required_fields_missing, []) /\
  requests (invoke request op volumeId (JObj props)) srv = [].
Proof.
  intros Hin Hv Hf.
  assert (Hval : validator op (JObj props) = Normal false).
  { rewrite validator_truthiness. f_equal. apply forallb_false_elem.
    exists f. split; [exact Hin|]. unfold field. rewrite Hv. exact Hf. }
  split; [exact Hval|]. unfold requests.
  rewrite (invoke_invalid request op volumeId (JObj props) srv Hval).
  split; reflexivity.
Qed.

Lemma falsy_required_field_is_rejected_witness :
  let props := [("type", JStr "attach"); ("droplet_id", JNum (NInt 0))] in
  validator Attach (JObj props) = Normal false /\
  run (invoke client Attach "v1" (JObj props)) (always accepted)
  = (Abrupt BlockStorageActionService.required_fields_missing, []) /\
  requests (invoke client Attach "v1" (JObj props)) (always accepted) = [].
Proof.
  apply (falsy_required_field_is_rejected client Attach "v1"
           [("type", JStr "attach"); ("droplet_id", JNum (NInt 0))]
           (always accepted) "droplet_id" (JNum (NInt 0))).
  - vm_compute. member.
  - reflexivity.
  - reflexivity.
Defined.

(** The other two examples of C10: a resize of 0 gigabytes, an empty type. *)
Example resize_zero_gigabytes_rejected :
  run (BlockStorageActionService.resizeVolume client "v1"
         (JObj [("type", JStr "resize"); ("size_gigabytes", JNum (NInt 0))]))
      (always accepted)
  = (Abrupt BlockStorageActionService.required_fields_missing, []).
Proof. reflexivity. Qed.

Example empty_type_rejected :
  run (BlockStorageActionService.detachVolumeFromDropletByName client
         (JObj [("type", JStr EmptyString); ("droplet_id", JNum (NInt 7));
                ("volume_name", JStr "example")]))
      (always accepted)
  = (Abrupt BlockStorageActionService.required_fields_missing, []).
Proof. reflexivity. Qed.

(** With [data] always [null], the projection [response.data.action] of a
    resolved call throws: the POST of the spec's scenario goes out and the
    operation then rejects. *)
Example attach_accepted_rejects :
  run (BlockStorageActionService.attachVolumeToDroplet client "v1" attach_request)
      (always accepted)
  = (Abrupt (TypeError "Cannot read properties of null"),
     [Transport.request_of client "POST" "/volumes/v1/actions"
        (Some ("{" +:+ quoted "type" +:+ ":" +:+ quoted "attach" +:+ ","
                   +:+ quoted "droplet_id" +:+ ":42," +:+ quoted "region"
                   +:+ ":" +:+ quoted "nyc1" +:+ "}"))]).
Proof. reflexivity. Qed.

(** ** Pagination of the action lists *)


Lemma getAllActions_requests (request : Transport.RequestTool)
    (perPage page : jsval) (srv : server) :
  requests (ActionService.getAllActions request perPage page) srv
  = [Transport.request_of request "GET" (ActionService.getAllActions_url perPage page) None].
Proof.
  unfold ActionService.getAllActions. rewrite requests_project.
  unfold requests, Transport.get. rewrite query_log. reflexivity.
Qed.

Lemma getAllVolumeActions_requests (request : Transport.RequestTool)
    (volumeId : string) (perPage page : jsval) (srv : server) :
  requests (BlockStorageActionService.getAllVolumeActions request volumeId perPage page) srv
  = [Transport.request_of request "GET"
       (BlockStorageActionService.getAllVolumeActions_url volumeId perPage page) None].
Proof.
  unfold BlockStorageActionService.getAllVolumeActions. rewrite requests_project.
  unfold requests, Transport.get. rewrite query_log. reflexivity.
Qed.




(** ** The floating-IP action service *)

(** C8: when no global is named [redataquest], [unassignFloatingIP] throws
    a ReferenceError for every address, with no request issued. *)
Theorem unassignFloatingIP_throws
    (globals : gmap string jsval) (request : Transport.RequestTool)
    (floatingIPAddress : string) (srv : server) :
  globals !! "redataquest" = None ->
  run (FloatingIPActionService.unassignFloatingIP globals request floatingIPAddress) srv
  = (Abrupt (ReferenceError "redataquest is not defined"), []).
Proof.
  intros H.
  unfold run, FloatingIPActionService.unassignFloatingIP, mbind, Eff_bind, lift,
         FloatingIPActionService.resolve.
  cbn [lookup_prop String.eqb Ascii.eqb Bool.eqb]. rewrite H. reflexivity.
Qed.

Lemma unassignFloatingIP_throws_witness :
  run (FloatingIPActionService.unassignFloatingIP ∅ client "1.2.3.4") (always accepted)
  = (Abrupt (ReferenceError "redataquest is not defined"), []).
Proof.
  apply (unassignFloatingIP_throws ∅ client "1.2.3.4" (always accepted)).
  reflexivity.
Defined.

(** * Further properties *)

Import Wire.

(** ** The transport, once more *)

Lemma run_bind {A B : Type} (m : Eff A) (k : A -> Eff B) (srv : server) :
  run (a ← m; k a) srv
  = match run m srv with
    | (Normal a, log) => k a srv log
    | (Abrupt e, log) => (Abrupt e, log)
    end.
Proof. reflexivity. Qed.

(** X1: a call issues at most one request.  It issues none exactly when
    serializing the body throws; and when [fetch] rejects, the call ends
    with that same error after its one request: nothing is retried and
    nothing is classified. *)
Theorem query_single_attempt
    (this : Transport.RequestTool) (method path : string) (body : jsval)
    (srv : server) :
  (length (requests (Transport.query this method path body) srv) <= 1)%nat /\
  (requests (Transport.query this method path body) srv = []
   <-> exists e, Transport.opts_body body = Abrupt e) /\
  (forall b e,
     Transport.opts_body body = Normal b ->
     srv (Transport.request_of this method path b) = Abrupt e ->
     run (Transport.query this method path body) srv
     = (Abrupt e, [Transport.request_of this method path b])).
Proof.
  unfold requests. rewrite query_log.
  split; [|split].
  - destruct (Transport.opts_body body); simpl; lia.
  - destruct (Transport.opts_body body) as [b|e]; split.
    + intros H; discriminate H.
    + intros [e H]; discriminate H.
    + eauto.
    + reflexivity.
  - intros b e Hb Hs. apply query_run_reject; assumption.
Qed.

(** X2: an answered call hands back the response it received and the text
    read from it, unchanged: in the Result up to status 400, 400 included,
    and in the payload of the rejection above 400. *)
Theorem answered_call_keeps_response_and_text
    (this : Transport.RequestTool) (method path : string) (body : jsval)
    (srv : server) (b : option string) (resp : Response) :
  Transport.opts_body body = Normal b ->
  srv (Transport.request_of this method path b) = Normal resp ->
  ((status resp <= 400)%Z ->
     exists r, fst (run (Transport.query this method path body) srv) = Normal r /\
               response r = resp /\ text r = resp_body resp) /\
  ((status resp > 400)%Z ->
     exists e r, fst (run (Transport.query this method path body) srv) = Abrupt e /\
                 payload e = Some r /\ response r = resp /\ text r = resp_body resp).
Proof.
  intros Hb Hs.
  rewrite (query_run_response this method path body srv b resp Hb Hs). cbn [fst].
  split; intros Hst.
  - destruct (Z.gtb_spec (status resp) 500) as [Hgt|_]; [lia|].
    destruct (Z.gtb_spec (status resp) 400) as [Hgt|_]; [lia|].
    eexists. repeat split.
  - destruct (Z.gtb_spec (status resp) 500) as [_|Hle].
    + eexists. eexists. repeat split.
    + destruct (Z.gtb_spec (status resp) 400) as [_|Hle']; [|lia].
      eexists. eexists. repeat split.
Qed.

Lemma answered_call_keeps_response_and_text_witness :
  let bad_request := mkResponse 400 "Bad Request" [] None in
  (exists r,
     fst (run (Transport.query client "DELETE" "/volumes/v1" JUndefined)
              (always bad_request)) = Normal r /\
     response r = bad_request /\ text r = None)
  /\ (exists e r,
        fst (run (Transport.query client "GET" "/droplets/999" JUndefined)
                 (always not_found)) = Abrupt e /\
        payload e = Some r /\ response r = not_found /\
        text r = Some not_found_text).
Proof.
  split.
  - destruct (answered_call_keeps_response_and_text client "DELETE" "/volumes/v1"
                JUndefined (always (mkResponse 400 "Bad Request" [] None)) None
                (mkResponse 400 "Bad Request" [] None) eq_refl eq_refl) as [H _].
    apply H. cbn. lia.
  - destruct (answered_call_keeps_response_and_text client "GET" "/droplets/999"
                JUndefined (always not_found) None not_found eq_refl eq_refl) as [_ H].
    apply H. cbn. lia.
Defined.

(** X3: whatever the body of the response, the [data] of the Result, or of
    the classified error, is [null]. *)
Theorem answered_call_data_is_null
    (this : Transport.RequestTool) (method path : string) (body : jsval)
    (srv : server) (b : option string) (resp : Response) :
  Transport.opts_body body = Normal b ->
  srv (Transport.request_of this method path b) = Normal resp ->
  exists r, data r = JNull /\
    (fst (run (Transport.query this method path body) srv) = Normal r \/
     exists msg, fst (run (Transport.query this method path body) srv)
                 = Abrupt (ErrorWith msg r)).
Proof.
  intros Hb Hs.
  rewrite (query_run_response this method path body srv b resp Hb Hs). cbn [fst].
  exists (mkResult resp (resp_body resp) JNull). split; [reflexivity|].
  destruct (status resp >? 500)%Z; [right; eauto|].
  destruct (status resp >? 400)%Z; [right; eauto|left; reflexivity].
Qed.

Lemma answered_call_data_is_null_witness :
  exists r, data r = JNull /\
    (fst (run (Transport.query client "POST" "/volumes/v1/actions" attach_request)
              (always accepted)) = Normal r \/
     exists msg,
       fst (run (Transport.query client "POST" "/volumes/v1/actions" attach_request)
                (always accepted)) = Abrupt (ErrorWith msg r)).
Proof.
  apply (answered_call_data_is_null client "POST" "/volumes/v1/actions" attach_request
           (always accepted)
           (Some ("{" +:+ quoted "type" +:+ ":" +:+ quoted "attach" +:+ ","
                      +:+ quoted "droplet_id" +:+ ":42," +:+ quoted "region"
                      +:+ ":" +:+ quoted "nyc1" +:+ "}"))
           accepted); reflexivity.
Defined.

Lemma projected_query_never_resolves
    (this : Transport.RequestTool) (method path : string) (body : jsval)
    (name : string) (srv : server) (v : jsval) :
  fst (run (response ← Transport.query this method path body;
            BlockStorageActionService.project name response) srv) <> Normal v.
Proof.
  rewrite run_bind.
  destruct (Transport.opts_body body) as [b|e] eqn:Hb.
  - destruct (srv (Transport.request_of this method path b)) as [resp|e] eqn:Hs.
    + rewrite (query_run_response this method path body srv b resp Hb Hs).
      cbv zeta.
      destruct (status resp >? 500)%Z; [discriminate|].
      destruct (status resp >? 400)%Z; discriminate.
    + rewrite (query_run_reject this method path body srv b e Hb Hs). discriminate.
  - rewrite (query_run_throw this method path body srv e Hb). discriminate.
Qed.

Lemma invoke_throws (request : Transport.RequestTool) (op : action_op)
    (volumeId : string) (actionRequest : jsval) (srv : server) (e : js_error) :
  validator op actionRequest = Abrupt e ->
  run (invoke request op volumeId actionRequest) srv = (Abrupt e, []).
Proof.
  intros H. destruct op; cbn in H |- *;
    unfold run, BlockStorageActionService.attachVolumeToDroplet,
           BlockStorageActionService.detachVolumeFromDroplet,
           BlockStorageActionService.attachVolumeToDropletByName,
           BlockStorageActionService.detachVolumeFromDropletByName,
           BlockStorageActionService.resizeVolume, mbind, Eff_bind, lift;
    rewrite H; reflexivity.
Qed.

(** X4: no operation of the block-storage action service resolves.  The
    five guarded operations and the two reads end abruptly for every
    request and every world: when the transport resolves, reading
    [response.data.action] on a [null] [data] throws. *)
Theorem action_operations_never_resolve
    (request : Transport.RequestTool) (op : action_op) (volumeId : string)
    (actionRequest perPage page actionId : jsval) (srv : server) (v : jsval) :
  fst (run (invoke request op volumeId actionRequest) srv) <> Normal v /\
  fst (run (BlockStorageActionService.getAllVolumeActions request volumeId perPage page)
           srv) <> Normal v /\
  fst (run (BlockStorageActionService.getExistingVolumeAction request volumeId actionId)
           srv) <> Normal v.
Proof.
  split; [|split].
  - destruct (validator op actionRequest) as [[|]|e] eqn:Hv.
    + rewrite (invoke_valid request op volumeId actionRequest srv Hv).
      apply projected_query_never_resolves.
    + rewrite (invoke_invalid request op volumeId actionRequest srv Hv). discriminate.
    + rewrite (invoke_throws request op volumeId actionRequest srv e Hv). discriminate.
  - apply projected_query_never_resolves.
  - apply projected_query_never_resolves.
Qed.

(** X5: an action request that passes validation but does not serialize
    ends the operation with the error of [JSON.stringify], before any
    request. *)
Theorem valid_unserializable_action_rejected
    (request : Transport.RequestTool) (op : action_op) (volumeId : string)
    (props : list (string * jsval)) (srv : server) (e : js_error) :
  (forall f, f ∈ required op -> truthy (field props f) = true) ->
  JSON_stringify (JObj props) = Abrupt e ->
  run (invoke request op volumeId (JObj props)) srv = (Abrupt e, []).
Proof.
  intros Hall He.
  rewrite invoke_valid.
  - rewrite run_bind. unfold Transport.post.
    rewrite (query_run_throw request "POST" _ (JObj props) srv e); [reflexivity|].
    exact He.
  - rewrite validator_truthiness. f_equal. apply forallb_true_elem. exact Hall.
Qed.

Lemma valid_unserializable_action_rejected_witness :
  run (invoke client Resize "v1"
         (JObj [("type", JStr "resize"); ("size_gigabytes", JBigInt 100)]))
      (always accepted)
  = (Abrupt (TypeError "Do not know how to serialize a BigInt"), []).
Proof.
  apply (valid_unserializable_action_rejected client Resize "v1"
           [("type", JStr "resize"); ("size_gigabytes", JBigInt 100)] (always accepted)).
  - intros f Hf. cbn in Hf.
    apply elem_of_cons in Hf. destruct Hf as [->|Hf]; [reflexivity|].
    apply list_elem_of_singleton in Hf. subst f. reflexivity.
  - reflexivity.
Defined.

(** X6: called with [undefined] or [null] in place of the action request,
    a guarded operation ends with a TypeError, not with the validation
    error, and issues no request. *)
Theorem missing_action_request_is_a_TypeError
    (request : Transport.RequestTool) (op : action_op) (volumeId : string)
    (actionRequest : jsval) (srv : server) :
  actionRequest = JUndefined \/ actionRequest = JNull ->
  exists msg,
    run (invoke request op volumeId actionRequest) srv = (Abrupt (TypeError msg), []).
Proof.
  intros [->| ->]; eexists; apply invoke_throws; destruct op; reflexivity.
Qed.

Lemma missing_action_request_is_a_TypeError_witness :
  exists msg,
    run (invoke client AttachByName "v1" JUndefined) (always accepted)
    = (Abrupt (TypeError msg), []).
Proof.
  apply (missing_action_request_is_a_TypeError client AttachByName "v1" JUndefined
           (always accepted)).
  left. reflexivity.
Defined.

Lemma truthy_or_falsy (a b : jsval) :
  truthy a = false -> BlockStorageActionService.truthy_or a b = b.
Proof. intros H. unfold BlockStorageActionService.truthy_or. rewrite H. reflexivity. Qed.

(** X7: a [perPage] of 0 or NaN acts as an omitted one in both action
    lists, and so does such a [page] in [getAllActions]; in
    [getAllVolumeActions] a supplied [page] is echoed even then. *)
Theorem falsy_pagination_acts_as_omitted
    (request : Transport.RequestTool) (volumeId : string) (srv : server) (n : jsnum) :
  truthy (JNum n) = false ->
  (forall page,
     requests (ActionService.getAllActions request (JNum n) page) srv
     = requests (ActionService.getAllActions request JUndefined page) srv) /\
  (forall perPage,
     requests (ActionService.getAllActions request perPage (JNum n)) srv
     = requests (ActionService.getAllActions request perPage JUndefined) srv) /\
  (forall page,
     requests (BlockStorageActionService.getAllVolumeActions request volumeId
                 (JNum n) page) srv
     = requests (BlockStorageActionService.getAllVolumeActions request volumeId
                   JUndefined page) srv) /\
  (forall perPage,
     requests (BlockStorageActionService.getAllVolumeActions request volumeId
                 perPage (JNum n)) srv
     = [Transport.request_of request "GET"
          ("/volumes/" +:+ volumeId +:+ "/actions?page=" +:+ number_to_string n
             +:+ "&per_page="
             +:+ ToString (BlockStorageActionService.truthy_or perPage (JNum (NInt 25))))
          None]).
Proof.
  intros Hn. repeat split; intros;
    rewrite ?getAllActions_requests, ?getAllVolumeActions_requests;
    unfold ActionService.getAllActions_url,
           BlockStorageActionService.getAllVolumeActions_url;
    rewrite ?(truthy_or_falsy (JNum n)) by exact Hn; reflexivity.
Qed.

Lemma falsy_pagination_acts_as_omitted_witness :
  requests (ActionService.getAllActions client (JNum NNaN) (JNum (NInt 2)))
           (always accepted)
  = requests (ActionService.getAllActions client JUndefined (JNum (NInt 2)))
             (always accepted)
  /\ requests (BlockStorageActionService.getAllVolumeActions client "v1"
                 (JNum (NInt 10)) (JNum (NInt 0))) (always accepted)
     = [Transport.request_of client "GET" "/volumes/v1/actions?page=0&per_page=10" None].
Proof.
  split.
  - destruct (falsy_pagination_acts_as_omitted client "v1" (always accepted) NNaN eq_refl)
      as [H _].
    apply H.
  - destruct (falsy_pagination_acts_as_omitted client "v1" (always accepted) (NInt 0)
                eq_refl) as [_ [_ [_ H]]].
    apply (H (JNum (NInt 10))).
Defined.

(** ** The block-storage service *)

Lemma volumeIsValid_truthiness (props : list (string * jsval)) :
  BlockStorageService.volumeIsValid (JObj props)
  = Normal (truthy (field props "size_gigabytes") && truthy (field props "name")).
Proof.
  unfold BlockStorageService.volumeIsValid, mbind, completion_bind, mret,
         completion_ret, get_prop, field.
  destruct (truthy (default JUndefined (lookup_prop "size_gigabytes" props))); cbn;
    [|reflexivity].
  destruct (truthy (default JUndefined (lookup_prop "name" props))); reflexivity.
Qed.

(** X8: [createBlockStorage] ends with its validation error and no request
    when [size_gigabytes] or [name] reads falsy; otherwise it issues one
    POST to [/volumes] with the serialized volume as body. *)
Theorem createBlockStorage_guard
    (request : Transport.RequestTool) (props : list (string * jsval)) (srv : server) :
  (truthy (field props "size_gigabytes") && truthy (field props "name") = false ->
     run (BlockStorageService.createBlockStorage request (JObj props)) srv
     = (Abrupt BlockStorageService.required_fields_missing, [])) /\
  (truthy (field props "size_gigabytes") && truthy (field props "name") = true ->
     forall b, JSON_stringify (JObj props) = Normal b ->
       requests (BlockStorageService.createBlockStorage request (JObj props)) srv
       = [Transport.request_of request "POST" "/volumes" b]).
Proof.
  unfold requests, BlockStorageService.createBlockStorage.
  split; intros Hv.
  - unfold run, mbind at 1, Eff_bind at 1, lift.
    rewrite volumeIsValid_truthiness, Hv. reflexivity.
  - intros b Hb. unfold run, mbind at 1, Eff_bind at 1, lift.
    rewrite volumeIsValid_truthiness, Hv. cbn [negb].
    change (snd (run (response ← Transport.post request "/volumes" (JObj props);
                      BlockStorageActionService.project "volume" response) srv)
            = [Transport.request_of request "POST" "/volumes" b]).
    fold (requests (response ← Transport.post request "/volumes" (JObj props);
                    BlockStorageActionService.project "volume" response) srv).
    rewrite requests_project. unfold requests, Transport.post.
    rewrite query_log. cbn [Transport.opts_body]. rewrite Hb. reflexivity.
Qed.

Lemma createBlockStorage_guard_witness :
  run (BlockStorageService.createBlockStorage client
         (JObj [("size_gigabytes", JNum (NInt 10)); ("name", JStr EmptyString)]))
      (always accepted)
  = (Abrupt BlockStorageService.required_fields_missing, [])
  /\ requests (BlockStorageService.createBlockStorage client
                 (JObj [("size_gigabytes", JNum (NInt 10)); ("name", JStr "example")]))
              (always accepted)
     = [Transport.request_of client "POST" "/volumes"
          (Some ("{" +:+ quoted "size_gigabytes" +:+ ":10," +:+ quoted "name" +:+ ":"
                     +:+ quoted "example" +:+ "}"))].
Proof.
  split.
  - apply (createBlockStorage_guard client
             [("size_gigabytes", JNum (NInt 10)); ("name", JStr EmptyString)]
             (always accepted)).
    reflexivity.
  - apply (createBlockStorage_guard client
             [("size_gigabytes", JNum (NInt 10)); ("name", JStr "example")]
             (always accepted)); reflexivity.
Defined.

(** A call whose result is discarded: one request, and [undefined] exactly
    when the transport resolves. *)
Lemma discarded_query_run
    (this : Transport.RequestTool) (method path : string) (body : jsval)
    (srv : server) (b : option string) (resp : Response) :
  Transport.opts_body body = Normal b ->
  srv (Transport.request_of this method path b) = Normal resp ->
  requests (response ← Transport.query this method path body;
            BlockStorageService.discard response) srv
  = [Transport.request_of this method path b] /\
  (fst (run (response ← Transport.query this method path body;
             BlockStorageService.discard response) srv) = Normal JUndefined
   <-> (status resp <= 400)%Z).
Proof.
  intros Hb Hs. unfold requests. rewrite run_bind.
  rewrite (query_run_response this method path body srv b resp Hb Hs). cbv zeta.
  destruct (Z.gtb_spec (status resp) 500) as [Hgt|Hle].
  { split; [reflexivity|]. cbn. split; [discriminate|lia]. }
  destruct (Z.gtb_spec (status resp) 400) as [Hgt|Hle'].
  { split; [reflexivity|]. cbn. split; [discriminate|lia]. }
  split; [reflexivity|]. cbn. split; [lia|reflexivity].
Qed.

(** X9: [deleteBlockStorageById] issues one DELETE without body, and,
    once answered, resolves with [undefined] exactly when the status is at
    most 400. *)
Theorem deleteBlockStorage_resolves_up_to_400
    (request : Transport.RequestTool) (id : string) (srv : server) (resp : Response) :
  srv (Transport.request_of request "DELETE" ("/volumes/" +:+ id) None) = Normal resp ->
  requests (BlockStorageService.deleteBlockStorageById request id) srv
  = [Transport.request_of request "DELETE" ("/volumes/" +:+ id) None] /\
  (fst (run (BlockStorageService.deleteBlockStorageById request id) srv)
   = Normal JUndefined <-> (status resp <= 400)%Z).
Proof.
  intros Hs. apply discarded_query_run; [reflexivity | exact Hs].
Qed.

Lemma deleteBlockStorage_resolves_up_to_400_witness :
  requests (BlockStorageService.deleteBlockStorageById client "v1") (always not_found)
  = [Transport.request_of client "DELETE" "/volumes/v1" None] /\
  (fst (run (BlockStorageService.deleteBlockStorageById client "v1") (always not_found))
   = Normal JUndefined <-> (status not_found <= 400)%Z).
Proof.
  apply (deleteBlockStorage_resolves_up_to_400 client "v1" (always not_found) not_found).
  reflexivity.
Defined.

Lemma append_assoc (a b c : string) : (a +:+ b) +:+ c = a +:+ (b +:+ c).
Proof.
  induction a as [|x a IH]; [reflexivity|].
  change (String x ((a +:+ b) +:+ c) = String x (a +:+ (b +:+ c))).
  f_equal. exact IH.
Qed.

(** X10: the by-name operations put their arguments into the query
    string unescaped: a name that ends in [&region=b] with region [c] runs
    exactly as the name without it with region [b&region=c]. *)
Theorem by_name_arguments_are_not_escaped
    (request : Transport.RequestTool) (a b c : string) (srv : server) :
  run (BlockStorageService.getBlockStorageByName request (a +:+ "&region=" +:+ b) c) srv
  = run (BlockStorageService.getBlockStorageByName request a (b +:+ "&region=" +:+ c)) srv
  /\
  run (BlockStorageService.deleteBlockStorageByName request (a +:+ "&region=" +:+ b) c) srv
  = run (BlockStorageService.deleteBlockStorageByName request a (b +:+ "&region=" +:+ c))
        srv.
Proof.
  assert (H : BlockStorageService.by_name_path (a +:+ "&region=" +:+ b) c
              = BlockStorageService.by_name_path a (b +:+ "&region=" +:+ c)).
  { unfold BlockStorageService.by_name_path.
    rewrite !append_assoc. reflexivity. }
  unfold BlockStorageService.getBlockStorageByName,
         BlockStorageService.deleteBlockStorageByName.
  rewrite H. split; reflexivity.
Qed.

(** ** Tags *)

Lemma stringify_resources (ids : list string) :
  stringify_elements (map TagService.resource ids) = Normal (map resource_text ids).
Proof.
  induction ids as [|id ids IH]; [reflexivity|].
  cbn [map stringify_elements]. rewrite IH. reflexivity.
Qed.

Lemma discarded_query_requests
    (this : Transport.RequestTool) (method path : string) (body : jsval) (srv : server) :
  requests (response ← Transport.query this method path body;
            BlockStorageService.discard response) srv
  = requests (Transport.query this method path body) srv.
Proof.
  unfold requests, run, mbind, Eff_bind, BlockStorageService.discard, mret, Eff_ret.
  destruct (Transport.query this method path body srv []) as [[r|e] log]; reflexivity.
Qed.

(** X11: [tagResources] issues one POST whose body lists every id, in
    order, each as a resource of type [droplet]; serializing it never
    throws, and an empty list of ids is posted as an empty array. *)
Theorem tagResources_body
    (request : Transport.RequestTool) (tagName : string) (resourceIds : list string)
    (srv : server) :
  requests (TagService.tagResources request tagName resourceIds) srv
  = [Transport.request_of request "POST" ("/tags/" +:+ tagName +:+ "/resources")
       (Some (resources_text resourceIds))].
Proof.
  unfold TagService.tagResources. cbv zeta. unfold Transport.post.
  rewrite discarded_query_requests. unfold requests. rewrite query_log.
  cbn [Transport.opts_body]. unfold JSON_stringify.
  rewrite stringify_obj. cbn [stringify_members].
  rewrite stringify_arr, stringify_resources. reflexivity.
Qed.

Example tagResources_no_ids :
  requests (TagService.tagResources client "web" []) (always accepted)
  = [Transport.request_of client "POST" "/tags/web/resources"
       (Some ("{" +:+ quoted "resources" +:+ ":[]}"))].
Proof. reflexivity. Qed.

(** X12: [removeTagFromResources] issues one DELETE whose body is the
    body of [tagResources] under a [data] key, with no [Content-Type]
    header. *)
Theorem removeTagFromResources_body
    (request : Transport.RequestTool) (tagName : string) (resourceIds : list string)
    (srv : server) :
  exists r,
    requests (TagService.removeTagFromResources request tagName resourceIds) srv = [r] /\
    req_method r = "DELETE" /\
    req_url r = Transport.baseUrl request +:+ "/tags/" +:+ tagName +:+ "/resources" /\
    req_body r = Some (object_text [member_text "data" (resources_text resourceIds)]) /\
    req_headers r !! "Content-Type" = None.
Proof.
  eexists. split; [|split; [|split; [|split]]].
  - unfold TagService.removeTagFromResources. cbv zeta. unfold Transport.delete.
    rewrite discarded_query_requests. unfold requests. rewrite query_log.
    cbn [Transport.opts_body]. unfold JSON_stringify.
    rewrite stringify_obj. cbn [stringify_members].
    rewrite stringify_obj. cbn [stringify_members].
    rewrite stringify_arr, stringify_resources. reflexivity.
  - reflexivity.
  - reflexivity.
  - reflexivity.
  - cbn [req_headers Transport.request_of]. rewrite getHeaders_content_type. reflexivity.
Qed.

(** ** Snapshots *)

Lemma projected_get_requests
    (request : Transport.RequestTool) (url name : string) (srv : server) :
  requests (response ← Transport.get request url;
            BlockStorageActionService.project name response) srv
  = [Transport.request_of request "GET" url None].
Proof.
  rewrite requests_project. unfold requests, Transport.get. rewrite query_log.
  reflexivity.
Qed.

(** X13: [getSnapshots] asks for [/snapshots] when the type is omitted,
    empty or [all], and adds [?resource_type=] followed by the type for any
    other string. *)
Theorem getSnapshots_filter
    (request : Transport.RequestTool) (srv : server) :
  (forall resourceType,
     resourceType = JUndefined \/ resourceType = JStr EmptyString \/
     resourceType = JStr "all" ->
     requests (SnapshotService.getSnapshots request resourceType) srv
     = [Transport.request_of request "GET" "/snapshots" None]) /\
  (forall t, t <> EmptyString -> t <> "all" ->
     requests (SnapshotService.getSnapshots request (JStr t)) srv
     = [Transport.request_of request "GET" ("/snapshots?resource_type=" +:+ t) None]).
Proof.
  unfold SnapshotService.getSnapshots. split.
  - intros resourceType [->|[->| ->]]; rewrite projected_get_requests; reflexivity.
  - intros t Hempty Hall. rewrite projected_get_requests.
    unfold SnapshotService.getSnapshots_url. cbn [truthy SnapshotService.strict_ne_string].
    destruct (String.eqb_spec t EmptyString) as [->|_]; [congruence|].
    destruct (String.eqb_spec t "all") as [->|_]; [congruence|].
    reflexivity.
Qed.

Lemma getSnapshots_filter_witness :
  requests (SnapshotService.getSnapshots client (JStr "all")) (always accepted)
  = [Transport.request_of client "GET" "/snapshots" None]
  /\ requests (SnapshotService.getSnapshots client (JStr "volume")) (always accepted)
      = [Transport.request_of client "GET" "/snapshots?resource_type=volume" None].
Proof.
  destruct (getSnapshots_filter client (always accepted)) as [H1 H2].
  split.
  - apply H1. right. right. reflexivity.
  - apply (H2 "volume"); discriminate.
Defined.

(** ** Images *)

Lemma conditional_falsy (a b : jsval) :
  truthy a = false -> ImageService.conditional a b = b.
Proof. intros H. unfold ImageService.conditional. rewrite H. reflexivity. Qed.

Lemma conditional_truthy (a b : jsval) :
  truthy a = true -> ImageService.conditional a b = a.
Proof. intros H. unfold ImageService.conditional. rewrite H. reflexivity. Qed.

(** X14: in the three paginated image lists an argument of 0 or NaN acts
    as an omitted one, and with both omitted the path ends in
    [page=1&per_page=25]. *)
Theorem image_lists_falsy_argument_acts_as_omitted
    (request : Transport.RequestTool) (srv : server) (n : jsnum) (other : jsval) :
  truthy (JNum n) = false ->
  requests (ImageService.getAllDistributionImages request JUndefined JUndefined) srv
  = [Transport.request_of request "GET"
       "/images?type=distribution&page=1&per_page=25" None] /\
  (requests (ImageService.getAllDistributionImages request (JNum n) other) srv
   = requests (ImageService.getAllDistributionImages request JUndefined other) srv /\
   requests (ImageService.getAllDistributionImages request other (JNum n)) srv
   = requests (ImageService.getAllDistributionImages request other JUndefined) srv) /\
  (requests (ImageService.getAllApplicationImages request (JNum n) other) srv
   = requests (ImageService.getAllApplicationImages request JUndefined other) srv /\
   requests (ImageService.getAllApplicationImages request other (JNum n)) srv
   = requests (ImageService.getAllApplicationImages request other JUndefined) srv) /\
  (requests (ImageService.getUserImages request (JNum n) other) srv
   = requests (ImageService.getUserImages request JUndefined other) srv /\
   requests (ImageService.getUserImages request other (JNum n)) srv
   = requests (ImageService.getUserImages request other JUndefined) srv).
Proof.
  intros Hn.
  unfold ImageService.getAllDistributionImages, ImageService.getAllApplicationImages,
         ImageService.getUserImages.
  rewrite !projected_get_requests. unfold ImageService.paginated.
  rewrite !(conditional_falsy (JNum n)) by exact Hn.
  repeat split; reflexivity.
Qed.

Lemma image_lists_falsy_argument_acts_as_omitted_witness :
  requests (ImageService.getUserImages client (JNum (NInt 0)) (JNum (NInt 3)))
           (always accepted)
  = requests (ImageService.getUserImages client JUndefined (JNum (NInt 3)))
             (always accepted).
Proof.
  destruct (image_lists_falsy_argument_acts_as_omitted client (always accepted)
              (NInt 0) (JNum (NInt 3)) eq_refl) as [_ [_ [_ [H _]]]].
  exact H.
Defined.

(** ** Kubernetes *)

(** X15: [deleteNodeFromNodePoolForCluster] issues one DELETE whose query
    string encodes each flag as 1 when it is truthy and 0 otherwise; flags
    that are falsy run exactly as omitted ones. *)
Theorem deleteNode_flags
    (request : Transport.RequestTool) (clusterId nodePoolId nodeId : string)
    (skipDrain replace : jsval) (srv : server) :
  requests (KubernetesService.deleteNodeFromNodePoolForCluster request clusterId
              nodePoolId nodeId skipDrain replace) srv
  = [Transport.request_of request "DELETE"
       ("/kubernetes/clusters/" +:+ clusterId +:+ "/node_pools/" +:+ nodePoolId
          +:+ "/nodes/" +:+ nodeId
          +:+ "?skip_drain=" +:+ (if truthy skipDrain then "1" else "0")
          +:+ "&replace=" +:+ (if truthy replace then "1" else "0")) None] /\
  (truthy skipDrain = false -> truthy replace = false ->
   run (KubernetesService.deleteNodeFromNodePoolForCluster request clusterId
          nodePoolId nodeId skipDrain replace) srv
   = run (KubernetesService.deleteNodeFromNodePoolForCluster request clusterId
            nodePoolId nodeId JUndefined JUndefined) srv).
Proof.
  split.
  - unfold KubernetesService.deleteNodeFromNodePoolForCluster. cbv zeta.
    unfold Transport.delete. rewrite discarded_query_requests.
    unfold requests. rewrite query_log.
    unfold KubernetesService.deleteNode_url, KubernetesService.bit.
    destruct (truthy skipDrain), (truthy replace); reflexivity.
  - intros Hs Hr.
    unfold KubernetesService.deleteNodeFromNodePoolForCluster,
           KubernetesService.deleteNode_url, KubernetesService.bit.
    rewrite Hs, Hr. reflexivity.
Qed.

Lemma deleteNode_flags_witness :
  run (KubernetesService.deleteNodeFromNodePoolForCluster client "c" "p" "n"
         (JBool false) (JNum (NInt 0))) (always accepted)
  = run (KubernetesService.deleteNodeFromNodePoolForCluster client "c" "p" "n"
           JUndefined JUndefined) (always accepted).
Proof.
  destruct (deleteNode_flags client "c" "p" "n" (JBool false) (JNum (NInt 0))
              (always accepted)) as [_ H].
  apply H; reflexivity.
Defined.

(** ** Firewalls *)

Lemma stringify_numbers (ids : list jsnum) :
  stringify_elements (map JNum ids) = Normal (map number_text ids).
Proof.
  induction ids as [|n ids IH]; [reflexivity|].
  cbn [map stringify_elements]. rewrite IH. destruct n; reflexivity.
Qed.

(** X16: [addDropletsToFirewall] posts the object with the list of ids;
    [removeDropletsFromFirewall] sends a DELETE whose body is that object
    under a [data] key, and a DELETE carries no [Content-Type]. *)
Theorem firewall_droplets_bodies
    (request : Transport.RequestTool) (firewallId : string) (dropletIds : list jsnum)
    (srv : server) :
  requests (FirewallService.addDropletsToFirewall request firewallId dropletIds) srv
  = [Transport.request_of request "POST" ("/firewalls/" +:+ firewallId +:+ "/droplets")
       (Some (droplet_ids_text dropletIds))] /\
  requests (FirewallService.removeDropletsFromFirewall request firewallId dropletIds) srv
  = [Transport.request_of request "DELETE" ("/firewalls/" +:+ firewallId +:+ "/droplets")
       (Some (object_text [member_text "data" (droplet_ids_text dropletIds)]))] /\
  Transport.getHeaders request "DELETE" !! "Content-Type" = None.
Proof.
  split; [|split].
  - unfold FirewallService.addDropletsToFirewall. cbv zeta. unfold Transport.post.
    rewrite discarded_query_requests. unfold requests. rewrite query_log.
    cbn [Transport.opts_body]. unfold JSON_stringify.
    rewrite stringify_obj. cbn [stringify_members].
    rewrite stringify_arr, stringify_numbers. reflexivity.
  - unfold FirewallService.removeDropletsFromFirewall. cbv zeta. unfold Transport.delete.
    rewrite discarded_query_requests. unfold requests. rewrite query_log.
    cbn [Transport.opts_body]. unfold JSON_stringify.
    rewrite stringify_obj. cbn [stringify_members].
    rewrite stringify_obj. cbn [stringify_members].
    rewrite stringify_arr, stringify_numbers. reflexivity.
  - rewrite getHeaders_content_type. reflexivity.
Qed.



(** ** CDN endpoints *)

(** X18: [createEndpoint] ends with its validation error and no request
    when [origin] reads falsy; otherwise it issues one POST to
    [/cdn/endpoints] with the serialized endpoint as body. *)
Theorem createEndpoint_guard
    (request : Transport.RequestTool) (props : list (string * jsval)) (srv : server) :
  (truthy (field props "origin") = false ->
     run (CdnService.createEndpoint request (JObj props)) srv
     = (Abrupt CdnService.required_fields_missing, [])) /\
  (truthy (field props "origin") = true ->
     forall b, JSON_stringify (JObj props) = Normal b ->
       requests (CdnService.createEndpoint request (JObj props)) srv
       = [Transport.request_of request "POST" "/cdn/endpoints" b]).
Proof.
  unfold requests, CdnService.createEndpoint, CdnService.endpointIsValid.
  split; intros Hv.
  - unfold run, mbind, Eff_bind, completion_bind, lift. cbn [get_prop].
    unfold field in Hv. rewrite Hv. reflexivity.
  - intros b Hb. unfold run, mbind at 1, Eff_bind at 1, lift.
    unfold mbind at 1, completion_bind. cbn [get_prop].
    unfold field in Hv. rewrite Hv. cbn [negb mret completion_ret].
    change (snd (run (response ← Transport.post request "/cdn/endpoints" (JObj props);
                      BlockStorageActionService.project "endpoint" response) srv)
            = [Transport.request_of request "POST" "/cdn/endpoints" b]).
    fold (requests (response ← Transport.post request "/cdn/endpoints" (JObj props);
                    BlockStorageActionService.project "endpoint" response) srv).
    rewrite requests_project. unfold requests, Transport.post.
    rewrite query_log. cbn [Transport.opts_body]. rewrite Hb. reflexivity.
Qed.

Lemma createEndpoint_guard_witness :
  run (CdnService.createEndpoint client (JObj [("ttl", JNum (NInt 3600))]))
      (always accepted)
  = (Abrupt CdnService.required_fields_missing, [])
  /\ requests (CdnService.createEndpoint client
                 (JObj [("origin", JStr "static.example.com")])) (always accepted)
      = [Transport.request_of client "POST" "/cdn/endpoints"
           (Some ("{" +:+ quoted "origin" +:+ ":" +:+ quoted "static.example.com"
                      +:+ "}"))].
Proof.
  split.
  - apply (createEndpoint_guard client [("ttl", JNum (NInt 3600))] (always accepted)).
    reflexivity.
  - apply (createEndpoint_guard client [("origin", JStr "static.example.com")]
             (always accepted)); reflexivity.
Defined.
